(** * Swappo chat service

    A shallow embedding of the chat service: the SQLAlchemy rows and
    pydantic schemas of [models.py], the request handlers of [main.py]
    (room registry, message store, statistics) and the notification
    dispatcher of [http_client.py].

    Conventions.
    - [Integer] columns and timestamps are [Z]; a nullable column is an
      [option]; [String]/[Text] columns are [string].
    - Every handler runs in the monad [IO]: it reads and writes a [World]
      (the two tables, their id sequences, the notifications endpoint and
      the log of what was posted and slept) and either returns a value or
      raises a Python exception [exn].
    - [func.now()] is the instant [now] handed to the handler by the
      database clock; it is a parameter of every handler that writes.
    - [print] calls only produce console output and are left out.
    - An [Integer] value that does not fit a signed 64-bit integer is
      refused by every driver and engine; [insert_chat_room] raises then.
      Narrower limits (a 32-bit INTEGER, a VARCHAR(100)) depend on the engine
      chosen in [database.py], which is not among the sources; theorems that
      assert a successful insertion of request data assume values within
      these narrower limits. *)

From Stdlib Require Import ZArith List String Ascii Bool Lia DecimalString.
From Stdlib Require Import Permutation Sorted Mergesort Orders.
Import ListNotations.
Local Open Scope string_scope.
Local Open Scope list_scope.
Local Open Scope Z_scope.

(** Python's [str(n)] / f-string formatting of an integer. *)
Definition str (z : Z) : string := NilZero.string_of_int (Z.to_int z).

(** ** models.py *)

Module MessageStatus.
Inductive t : Type := sent | delivered | read.

Definition value (s : t) : string :=
    match s with
    | sent => "sent"
    | delivered => "delivered"
    | read => "read"
    end.

Definition eqb (a b : t) : bool :=
    match a, b with
    | sent, sent | delivered, delivered | read, read => true
    | _, _ => false
    end.
End MessageStatus.

Module ChatRoomDB.
Record t : Type := mk {
    id : Z;
    trade_offer_id : Z;
    user1_id : string;
    user2_id : string;
    is_active : bool;
    last_message_at : option Z;
    created_at : Z;
    updated_at : Z
  }.
End ChatRoomDB.

Module MessageDB.
Record t : Type := mk {
    id : Z;
    chat_room_id : Z;
    sender_id : string;
    content : string;
    status : string;
    read_at : option Z;
    created_at : Z;
    updated_at : Z
  }.
End MessageDB.

Module ChatRoomCreate.
Record t : Type := mk {
    trade_offer_id : Z;
    user1_id : string;
    user2_id : string
  }.
End ChatRoomCreate.

(** [content] carries [min_length=1, max_length=5000]; pydantic enforces it
    when the request body is parsed, before [send_message] is entered. *)
Module MessageCreate.
Record t : Type := mk {
    chat_room_id : Z;
    sender_id : string;
    content : string
  }.
End MessageCreate.

Module MessageUpdate.
Record t : Type := mk { status : option MessageStatus.t }.
End MessageUpdate.

Module ChatRoomWithLastMessage.
Record t : Type := mk {
    id : Z;
    trade_offer_id : Z;
    user1_id : string;
    user2_id : string;
    is_active : bool;
    last_message_at : option Z;
    last_message_content : option string;
    last_message_sender_id : option string;
    unread_count : Z;
    created_at : Z;
    updated_at : Z
  }.
End ChatRoomWithLastMessage.

Module ChatStatistics.
Record t : Type := mk {
    total_rooms : Z;
    active_rooms : Z;
    total_messages : Z;
    total_unread_messages : Z
  }.
End ChatStatistics.

(** ** Exceptions, the world and the handler monad *)

Inductive exn : Type :=
| HTTPException (status_code : Z) (detail : string)   (* fastapi *)
| RequestError                                        (* httpx: connection failure, timeout *)
| HTTPStatusError (status_code : Z)                   (* httpx: raise_for_status *)
| RetryError                                          (* tenacity, attempts exhausted *)
| OtherException.                                     (* any other subclass of Exception *)

(** What one POST to the notifications service does. *)
Inductive post_outcome : Type :=
| Response (status_code : Z)
| Fails (e : exn).

Record World : Type := mkWorld {
  chat_rooms : list ChatRoomDB.t;          (* table chat_rooms, in insertion order *)
  messages : list MessageDB.t;             (* table messages, in insertion order *)
  chat_rooms_id_seq : Z;                   (* next primary key of chat_rooms *)
  messages_id_seq : Z;                     (* next primary key of messages *)
  notifications_service : nat -> post_outcome;  (* outcome of the k-th POST *)
  posted : list (string * list (string * string));  (* requests issued, oldest first *)
  slept : list Z                           (* back-off waits taken, oldest first *)
}.

Definition IO (A : Type) : Type := World -> (A + exn) * World.

Definition ret {A} (a : A) : IO A := fun w => (inl a, w).

Definition raise {A} (e : exn) : IO A := fun w => (inr e, w).

Definition bind {A B} (c : IO A) (k : A -> IO B) : IO B :=
  fun w =>
    match c w with
    | (inl a, w') => k a w'
    | (inr e, w') => (inr e, w')
    end.

(** [try: c except Exception as e: h e] *)
Definition try_except {A} (c : IO A) (h : exn -> IO A) : IO A :=
  fun w =>
    match c w with
    | (inl a, w') => (inl a, w')
    | (inr e, w') => h e w'
    end.

Notation "x <- c1 ;; c2" := (bind c1 (fun x => c2))
  (at level 61, c1 at next level, right associativity).
Notation "c1 ;; c2" := (bind c1 (fun _ => c2))
  (at level 61, right associativity).

(** *** The session: queries and writes *)

Definition query_chat_rooms (p : ChatRoomDB.t -> bool) : IO (list ChatRoomDB.t) :=
  fun w => (inl (filter p (chat_rooms w)), w).

Definition query_messages (p : MessageDB.t -> bool) : IO (list MessageDB.t) :=
  fun w => (inl (filter p (messages w)), w).

(** [.first()] *)
Definition first {A} (rows : list A) : option A := hd_error rows.

(** [func.count(...)...scalar()] *)
Definition scalar_count {A} (rows : list A) : option Z :=
  Some (Z.of_nat (List.length rows)).

(** Python's [x or 0] on an optional integer. *)
Definition or_0 (x : option Z) : Z :=
  match x with
  | Some n => if n =? 0 then 0 else n
  | None => 0
  end.

(** The integers every driver and engine accepts for an [Integer] column:
    the signed 64-bit ones. *)
Definition fits_integer (z : Z) : bool :=
  (- 2 ^ 63 <=? z) && (z <=? 2 ^ 63 - 1).

Arguments fits_integer : simpl never.

(** INSERT INTO chat_rooms: the key comes from the sequence, [created_at]
    and [updated_at] from the server default; returns the refreshed row.
    When the key or the trade offer id is no 64-bit integer the statement
    fails ([OverflowError] in the driver or [DataError] from the engine) and
    nothing is stored. *)
Definition insert_chat_room (trade_offer_id : Z) (user1_id user2_id : string)
    (is_active : bool) (now : Z) : IO ChatRoomDB.t :=
  fun w =>
    let row := ChatRoomDB.mk (chat_rooms_id_seq w) trade_offer_id user1_id user2_id
                 is_active None now now in
    if fits_integer (chat_rooms_id_seq w) && fits_integer trade_offer_id then
      (inl row,
       mkWorld (chat_rooms w ++ [row]) (messages w)
         (chat_rooms_id_seq w + 1) (messages_id_seq w)
         (notifications_service w) (posted w) (slept w))
    else (inr OtherException, w).

(** INSERT INTO messages; [read_at] is NULL. *)
Definition insert_message (chat_room_id : Z) (sender_id content status : string)
    (now : Z) : IO MessageDB.t :=
  fun w =>
    let row := MessageDB.mk (messages_id_seq w) chat_room_id sender_id content
                 status None now now in
    (inl row,
     mkWorld (chat_rooms w) (messages w ++ [row])
       (chat_rooms_id_seq w) (messages_id_seq w + 1)
       (notifications_service w) (posted w) (slept w)).

(** UPDATE chat_rooms SET ... WHERE id = [pk] *)
Definition update_chat_room (pk : Z) (f : ChatRoomDB.t -> ChatRoomDB.t) : IO unit :=
  fun w =>
    (inl tt,
     mkWorld (map (fun r => if ChatRoomDB.id r =? pk then f r else r) (chat_rooms w))
       (messages w) (chat_rooms_id_seq w) (messages_id_seq w)
       (notifications_service w) (posted w) (slept w)).

(** UPDATE messages SET ... WHERE [p]; returns the number of rows matched. *)
Definition update_messages (p : MessageDB.t -> bool) (f : MessageDB.t -> MessageDB.t)
    : IO Z :=
  fun w =>
    (inl (Z.of_nat (List.length (filter p (messages w)))),
     mkWorld (chat_rooms w)
       (map (fun m => if p m then f m else m) (messages w))
       (chat_rooms_id_seq w) (messages_id_seq w)
       (notifications_service w) (posted w) (slept w)).

Definition set_last_message_at (r : ChatRoomDB.t) (ts now : Z) : ChatRoomDB.t :=
  ChatRoomDB.mk (ChatRoomDB.id r) (ChatRoomDB.trade_offer_id r)
    (ChatRoomDB.user1_id r) (ChatRoomDB.user2_id r) (ChatRoomDB.is_active r)
    (Some ts) (ChatRoomDB.created_at r) now.

Definition set_is_active (r : ChatRoomDB.t) (b : bool) (now : Z) : ChatRoomDB.t :=
  ChatRoomDB.mk (ChatRoomDB.id r) (ChatRoomDB.trade_offer_id r)
    (ChatRoomDB.user1_id r) (ChatRoomDB.user2_id r) b
    (ChatRoomDB.last_message_at r) (ChatRoomDB.created_at r) now.

Definition set_status (m : MessageDB.t) (s : string) : MessageDB.t :=
  MessageDB.mk (MessageDB.id m) (MessageDB.chat_room_id m) (MessageDB.sender_id m)
    (MessageDB.content m) s (MessageDB.read_at m)
    (MessageDB.created_at m) (MessageDB.updated_at m).

Definition set_read_at (m : MessageDB.t) (ts : option Z) : MessageDB.t :=
  MessageDB.mk (MessageDB.id m) (MessageDB.chat_room_id m) (MessageDB.sender_id m)
    (MessageDB.content m) (MessageDB.status m) ts
    (MessageDB.created_at m) (MessageDB.updated_at m).

Definition set_updated_at (m : MessageDB.t) (now : Z) : MessageDB.t :=
  MessageDB.mk (MessageDB.id m) (MessageDB.chat_room_id m) (MessageDB.sender_id m)
    (MessageDB.content m) (MessageDB.status m) (MessageDB.read_at m)
    (MessageDB.created_at m) now.

(** Python's [x in [a, b]] on strings. *)
Definition str_in (x : string) (l : list string) : bool :=
  existsb (String.eqb x) l.

(** Truth value of an optional object ([None] is false, a row or a
    timestamp is true). *)
Definition truthy {A} (x : option A) : bool :=
  match x with Some _ => true | None => false end.

(** ** http_client.py: the notification dispatcher *)

(** [httpx.AsyncClient.post]: the request is recorded, the endpoint decides
    what comes back; a transport failure is raised. *)
Definition client_post (url : string) (json : list (string * string)) : IO Z :=
  fun w =>
    let w' := mkWorld (chat_rooms w) (messages w)
                (chat_rooms_id_seq w) (messages_id_seq w)
                (notifications_service w) (posted w ++ [(url, json)]) (slept w) in
    match notifications_service w (List.length (posted w)) with
    | Response status_code => (inl status_code, w')
    | Fails e => (inr e, w')
    end.

(** [httpx.Response.raise_for_status]: any status outside 2xx raises. *)
Definition raise_for_status (status_code : Z) : IO unit :=
  if (200 <=? status_code) && (status_code <=? 299) then ret tt
  else raise (HTTPStatusError status_code).

(** The tenacity decorator, as configured on the dispatcher. *)
Module tenacity.

(** [retry_if_exception_type((httpx.RequestError, httpx.HTTPStatusError))] *)
Definition retry_if_exception_type (e : exn) : bool :=
  match e with
  | RequestError | HTTPStatusError _ => true
  | _ => false
  end.

(** [wait_exponential(multiplier, min, max)] with base 2, evaluated after
    attempt [attempt_number] (counted from 1) has failed. *)
Definition wait_exponential (multiplier min max attempt_number : Z) : Z :=
  Z.max (Z.max 0 min) (Z.min (multiplier * 2 ^ (attempt_number - 1)) max).

Definition sleep (seconds : Z) : IO unit :=
  fun w =>
    (inl tt,
     mkWorld (chat_rooms w) (messages w)
       (chat_rooms_id_seq w) (messages_id_seq w)
       (notifications_service w) (posted w) (slept w ++ [seconds])).

(** The retrying loop.  [attempts_left] is the number of attempts that
    [stop_after_attempt(max_attempt_number)] still allows after the
    current one, so the current attempt has number
    [max_attempt_number - attempts_left] and the stop condition
    [attempt_number >= max_attempt_number] is [attempts_left = 0].
    A returned value ends the loop; an exception the retry predicate
    rejects is re-raised; on exhaustion, with [reraise=False], tenacity
    raises [RetryError]. *)
Fixpoint retrying {A} (retry : exn -> bool) (wait : Z -> Z)
    (max_attempt_number : Z) (attempts_left : nat) (fn : IO A) : IO A :=
  fun w =>
    match fn w with
    | (inl a, w') => (inl a, w')
    | (inr e, w') =>
        if retry e then
          match attempts_left with
          | O => (inr RetryError, w')
          | S k =>
              let attempt_number := max_attempt_number - Z.of_nat attempts_left in
              match sleep (wait attempt_number) w' with
              | (_, w'') => retrying retry wait max_attempt_number k fn w''
              end
          end
        else (inr e, w')
    end.

(** [@retry(retry=..., stop=stop_after_attempt(n), wait=..., reraise=False)] *)
Definition retry {A} (retry_pred : exn -> bool) (stop_after_attempt : nat)
    (wait : Z -> Z) (fn : IO A) : IO A :=
  retrying retry_pred wait (Z.of_nat stop_after_attempt)
    (Nat.pred stop_after_attempt) fn.

End tenacity.

(** The function under the decorator. *)
Definition send_notification_with_retry__wrapped (url : string)
    (notification_data : list (string * string)) : IO bool :=
  try_except
    (status_code <- client_post url notification_data ;;
     if status_code =? 201 then ret true
     else (raise_for_status status_code ;; ret false))
    (fun _ => ret false).

Definition send_notification_with_retry (url : string)
    (notification_data : list (string * string)) : IO bool :=
  tenacity.retry tenacity.retry_if_exception_type 3
    (tenacity.wait_exponential 1 1 10)
    (send_notification_with_retry__wrapped url notification_data).

(** ** main.py *)

Definition NOTIFICATION_SERVICE_URL : string := "http://notifications_service:8000".

(** The bytes that follow "New Message " in the title literal. *)
Definition title_suffix : string :=
  string_of_list_ascii
    (map (fun n => ascii_of_nat n)
       [195; 176; 197; 184; 226; 128; 153; 194; 172]%nat).

Definition send_message_notification (message : MessageDB.t) (recipient_id : string)
    : IO unit :=
  let notification_data :=
    [("user_id", recipient_id);
     ("type", "new_message");
     ("title", ("New Message " ++ title_suffix)%string);
     ("body", "You have a new message");
     ("related_user_id", MessageDB.sender_id message)] in
  send_notification_with_retry
    (NOTIFICATION_SERVICE_URL ++ "/api/v1/notifications")%string notification_data ;;
  ret tt.

(** *** Chat room endpoints *)

Definition create_chat_room (chat_room : ChatRoomCreate.t) (now : Z)
    : IO ChatRoomDB.t :=
  rows <- query_chat_rooms
            (fun r => ChatRoomDB.trade_offer_id r
                      =? ChatRoomCreate.trade_offer_id chat_room) ;;
  let existing_room := first rows in
  if truthy existing_room then
    raise (HTTPException 400
             ("Chat room already exists for trade offer "
              ++ str (ChatRoomCreate.trade_offer_id chat_room))%string)
  else
    insert_chat_room (ChatRoomCreate.trade_offer_id chat_room)
      (ChatRoomCreate.user1_id chat_room) (ChatRoomCreate.user2_id chat_room)
      true now.

Definition get_chat_room (chat_room_id : Z) : IO ChatRoomDB.t :=
  rows <- query_chat_rooms (fun r => ChatRoomDB.id r =? chat_room_id) ;;
  match first rows with
  | None =>
      raise (HTTPException 404 ("Chat room " ++ str chat_room_id ++ " not found")%string)
  | Some chat_room => ret chat_room
  end.

(** The unit of work writes the row only when [is_active] really changes;
    [updated_at] follows [onupdate]. *)
Definition deactivate_chat_room (chat_room_id : Z) (now : Z) : IO ChatRoomDB.t :=
  rows <- query_chat_rooms (fun r => ChatRoomDB.id r =? chat_room_id) ;;
  match first rows with
  | None =>
      raise (HTTPException 404 ("Chat room " ++ str chat_room_id ++ " not found")%string)
  | Some chat_room =>
      if ChatRoomDB.is_active chat_room then
        update_chat_room (ChatRoomDB.id chat_room)
          (fun r => set_is_active r false now) ;;
        ret (set_is_active chat_room false now)
      else ret chat_room
  end.

(** *** Message endpoints *)

Definition send_message (message : MessageCreate.t) (now : Z) : IO MessageDB.t :=
  rows <- query_chat_rooms
            (fun r => ChatRoomDB.id r =? MessageCreate.chat_room_id message) ;;
  match first rows with
  | None =>
      raise (HTTPException 404
               ("Chat room " ++ str (MessageCreate.chat_room_id message)
                ++ " not found")%string)
  | Some chat_room =>
      if negb (ChatRoomDB.is_active chat_room) then
        raise (HTTPException 400
                 ("Chat room " ++ str (MessageCreate.chat_room_id message)
                  ++ " is not active")%string)
      else if negb (str_in (MessageCreate.sender_id message)
                      [ChatRoomDB.user1_id chat_room; ChatRoomDB.user2_id chat_room]) then
        raise (HTTPException 400 "Sender is not a participant in this chat room")
      else
        db_message <- insert_message (MessageCreate.chat_room_id message)
                        (MessageCreate.sender_id message)
                        (MessageCreate.content message)
                        (MessageStatus.value MessageStatus.sent) now ;;
        update_chat_room (ChatRoomDB.id chat_room)
          (fun r => set_last_message_at r now now) ;;
        let recipient_id :=
          if String.eqb (MessageCreate.sender_id message) (ChatRoomDB.user1_id chat_room)
          then ChatRoomDB.user2_id chat_room
          else ChatRoomDB.user1_id chat_room in
        send_message_notification db_message recipient_id ;;
        ret db_message
  end.

Definition get_message (message_id : Z) : IO MessageDB.t :=
  rows <- query_messages (fun m => MessageDB.id m =? message_id) ;;
  match first rows with
  | None =>
      raise (HTTPException 404 ("Message " ++ str message_id ++ " not found")%string)
  | Some message => ret message
  end.

(** The status is written as given; [read_at] is set when the new status is
    [read] and no timestamp is stored yet.  The row is written (and
    [updated_at] refreshed) only when a column really changes. *)
Definition update_message (message_id : Z) (message_update : MessageUpdate.t)
    (now : Z) : IO MessageDB.t :=
  rows <- query_messages (fun m => MessageDB.id m =? message_id) ;;
  match first rows with
  | None =>
      raise (HTTPException 404 ("Message " ++ str message_id ++ " not found")%string)
  | Some message =>
      match MessageUpdate.status message_update with
      | Some new_status =>
          let stamp := MessageStatus.eqb new_status MessageStatus.read
                       && negb (truthy (MessageDB.read_at message)) in
          let assign := fun m =>
            let m1 := set_status m (MessageStatus.value new_status) in
            if stamp then set_read_at m1 (Some now) else m1 in
          let dirty := negb (String.eqb (MessageDB.status message)
                               (MessageStatus.value new_status)) || stamp in
          if dirty then
            update_messages (fun m => MessageDB.id m =? MessageDB.id message)
              (fun m => set_updated_at (assign m) now) ;;
            ret (set_updated_at (assign message) now)
          else ret message
      | None => ret message
      end
  end.

Module MarkReadResponse.
Record t : Type := mk { message : string; updated_count : Z }.
End MarkReadResponse.

Definition mark_messages_as_read (chat_room_id : Z) (user_id : string) (now : Z)
    : IO MarkReadResponse.t :=
  rows <- query_chat_rooms (fun r => ChatRoomDB.id r =? chat_room_id) ;;
  match first rows with
  | None =>
      raise (HTTPException 404 ("Chat room " ++ str chat_room_id ++ " not found")%string)
  | Some chat_room =>
      if negb (str_in user_id
                 [ChatRoomDB.user1_id chat_room; ChatRoomDB.user2_id chat_room]) then
        raise (HTTPException 400 "User is not a participant in this chat room")
      else
        updated_count <-
          update_messages
            (fun m => (MessageDB.chat_room_id m =? chat_room_id)
                      && negb (String.eqb (MessageDB.sender_id m) user_id)
                      && negb (String.eqb (MessageDB.status m)
                                 (MessageStatus.value MessageStatus.read)))
            (fun m => set_updated_at
                        (set_read_at
                           (set_status m (MessageStatus.value MessageStatus.read))
                           (Some now))
                        now) ;;
        ret (MarkReadResponse.mk "Messages marked as read" updated_count)
  end.

(** *** ORDER BY *)

(** Modelled from the spec: the database engine is chosen in [database.py],
    which is not among the sources at hand, and the engine decides where
    NULL goes under [ORDER BY last_message_at DESC].  The spec puts rooms
    with no messages last, a null timestamp being the earliest; that is the
    placement used here.  [desc_last_message_at a b] holds when [a] may
    stand before [b]. *)
Definition desc_last_message_at (a b : ChatRoomDB.t) : bool :=
  match ChatRoomDB.last_message_at a, ChatRoomDB.last_message_at b with
  | _, None => true
  | None, Some _ => false
  | Some x, Some y => y <=? x
  end.

Lemma desc_last_message_at_total a b :
  desc_last_message_at a b = true \/ desc_last_message_at b a = true.
Proof.
  unfold desc_last_message_at.
  destruct (ChatRoomDB.last_message_at a), (ChatRoomDB.last_message_at b);
    auto.
  destruct (Z.leb_spec z0 z); auto.
  right. apply Z.leb_le. lia.
Qed.

Module RoomOrder <: TotalLeBool.
Definition t := ChatRoomDB.t.
Definition leb := desc_last_message_at.
Definition leb_total := desc_last_message_at_total.
End RoomOrder.

Module RoomSort := Sort RoomOrder.

(** [ORDER BY created_at DESC] on messages ([created_at] is never NULL). *)
Definition desc_created_at (a b : MessageDB.t) : bool :=
  MessageDB.created_at b <=? MessageDB.created_at a.

Lemma desc_created_at_total a b :
  desc_created_at a b = true \/ desc_created_at b a = true.
Proof.
  unfold desc_created_at.
  destruct (Z.leb_spec (MessageDB.created_at b) (MessageDB.created_at a)); auto.
  right. apply Z.leb_le. lia.
Qed.

Module MessageOrder <: TotalLeBool.
Definition t := MessageDB.t.
Definition leb := desc_created_at.
Definition leb_total := desc_created_at_total.
End MessageOrder.

Module MessageSort := Sort MessageOrder.

(** *** Listing and statistics *)

Definition is_participant (user_id : string) (r : ChatRoomDB.t) : bool :=
  String.eqb (ChatRoomDB.user1_id r) user_id
  || String.eqb (ChatRoomDB.user2_id r) user_id.

Definition is_unread_for (user_id : string) (m : MessageDB.t) : bool :=
  negb (String.eqb (MessageDB.sender_id m) user_id)
  && negb (String.eqb (MessageDB.status m) (MessageStatus.value MessageStatus.read)).

(** The rows [list_chat_rooms] selects, in the order and the page it
    returns them. *)
Definition list_chat_rooms_query (user_id : string) (active_only : bool)
    (skip limit : nat) (w : World) : list ChatRoomDB.t :=
  let query := filter (is_participant user_id) (chat_rooms w) in
  let query := if active_only then filter ChatRoomDB.is_active query else query in
  let query := RoomSort.sort query in
  firstn limit (skipn skip query).

Definition list_chat_rooms (user_id : string) (active_only : bool)
    (skip limit : nat) : IO (list ChatRoomWithLastMessage.t) :=
  fun w =>
    let chat_rooms := list_chat_rooms_query user_id active_only skip limit w in
    (inl
       (map
          (fun room =>
             let last_message :=
               first (MessageSort.sort
                        (filter (fun m => MessageDB.chat_room_id m =? ChatRoomDB.id room)
                           (messages w))) in
             let unread_count :=
               scalar_count
                 (filter (fun m => (MessageDB.chat_room_id m =? ChatRoomDB.id room)
                                   && is_unread_for user_id m)
                    (messages w)) in
             ChatRoomWithLastMessage.mk
               (ChatRoomDB.id room) (ChatRoomDB.trade_offer_id room)
               (ChatRoomDB.user1_id room) (ChatRoomDB.user2_id room)
               (ChatRoomDB.is_active room) (ChatRoomDB.last_message_at room)
               (option_map MessageDB.content last_message)
               (option_map MessageDB.sender_id last_message)
               (or_0 unread_count)
               (ChatRoomDB.created_at room) (ChatRoomDB.updated_at room))
          chat_rooms),
     w).

(** [column.in_(ids)] *)
Definition in_ (x : Z) (ids : list Z) : bool := existsb (Z.eqb x) ids.

(** Truth value of [Optional[str]]: [None] and the empty string are false. *)
Definition truthy_str (s : option string) : bool :=
  match s with
  | Some u => negb (String.eqb u "")
  | None => false
  end.

(** The branch of [get_statistics] taken when [user_id] is true. *)
Definition user_statistics (u : string) (w : World)
    : option Z * option Z * option Z * option Z :=
  let total_rooms := scalar_count (filter (is_participant u) (chat_rooms w)) in
  let active_rooms :=
    scalar_count
      (filter (fun r => is_participant u r && ChatRoomDB.is_active r) (chat_rooms w)) in
  let room_ids := map ChatRoomDB.id (filter (is_participant u) (chat_rooms w)) in
  let total_messages :=
    match room_ids with
    | [] => Some 0
    | _ :: _ =>
        scalar_count
          (filter (fun m => in_ (MessageDB.chat_room_id m) room_ids) (messages w))
    end in
  let total_unread_messages :=
    match room_ids with
    | [] => Some 0
    | _ :: _ =>
        scalar_count
          (filter (fun m => in_ (MessageDB.chat_room_id m) room_ids && is_unread_for u m)
             (messages w))
    end in
  (total_rooms, active_rooms, total_messages, total_unread_messages).

(** The [else] branch: global statistics. *)
Definition global_statistics (w : World)
    : option Z * option Z * option Z * option Z :=
  (scalar_count (chat_rooms w),
   scalar_count (filter ChatRoomDB.is_active (chat_rooms w)),
   scalar_count (messages w),
   scalar_count
     (filter (fun m => negb (String.eqb (MessageDB.status m)
                               (MessageStatus.value MessageStatus.read)))
        (messages w))).

Definition get_statistics (user_id : option string) : IO ChatStatistics.t :=
  fun w =>
    let '(total_rooms, active_rooms, total_messages, total_unread_messages) :=
      match user_id with
      | Some u => if truthy_str user_id then user_statistics u w
                  else global_statistics w
      | None => global_statistics w
      end in
    (inl (ChatStatistics.mk (or_0 total_rooms) (or_0 active_rooms)
            (or_0 total_messages) (or_0 total_unread_messages)),
     w).

(** *** The remaining read endpoints *)

Definition get_chat_room_by_trade_offer (trade_offer_id : Z) : IO ChatRoomDB.t :=
  rows <- query_chat_rooms (fun r => ChatRoomDB.trade_offer_id r =? trade_offer_id) ;;
  match first rows with
  | None =>
      raise (HTTPException 404
               ("Chat room not found for trade offer " ++ str trade_offer_id)%string)
  | Some chat_room => ret chat_room
  end.

(** [ORDER BY created_at] on messages, oldest first. *)
Definition asc_created_at (a b : MessageDB.t) : bool :=
  MessageDB.created_at a <=? MessageDB.created_at b.

Lemma asc_created_at_total a b :
  asc_created_at a b = true \/ asc_created_at b a = true.
Proof.
  unfold asc_created_at.
  destruct (Z.leb_spec (MessageDB.created_at a) (MessageDB.created_at b)); auto.
  right. apply Z.leb_le. lia.
Qed.

Module MessageAscOrder <: TotalLeBool.
Definition t := MessageDB.t.
Definition leb := asc_created_at.
Definition leb_total := asc_created_at_total.
End MessageAscOrder.

Module MessageAscSort := Sort MessageAscOrder.

Definition list_messages (chat_room_id : Z) (skip limit : nat)
    : IO (list MessageDB.t) :=
  rows <- query_chat_rooms (fun r => ChatRoomDB.id r =? chat_room_id) ;;
  match first rows with
  | None =>
      raise (HTTPException 404 ("Chat room " ++ str chat_room_id ++ " not found")%string)
  | Some _ =>
      rows <- query_messages (fun m => MessageDB.chat_room_id m =? chat_room_id) ;;
      ret (firstn limit (skipn skip (MessageAscSort.sort rows)))
  end.

(** ** The service as a transition system *)

Inductive request : Type :=
| CreateChatRoom (chat_room : ChatRoomCreate.t)
| ListChatRooms (user_id : string) (active_only : bool) (skip limit : nat)
| GetChatRoom (chat_room_id : Z)
| DeactivateChatRoom (chat_room_id : Z)
| SendMessage (message : MessageCreate.t)
| GetMessage (message_id : Z)
| UpdateMessage (message_id : Z) (message_update : MessageUpdate.t)
| MarkMessagesAsRead (chat_room_id : Z) (user_id : string)
| GetStatistics (user_id : option string).

(** The world after a request has been served at instant [now]; the
    response itself is dropped. *)
Definition handle (req : request) (now : Z) (w : World) : World :=
  match req with
  | CreateChatRoom chat_room => snd (create_chat_room chat_room now w)
  | ListChatRooms user_id active_only skip limit =>
      snd (list_chat_rooms user_id active_only skip limit w)
  | GetChatRoom chat_room_id => snd (get_chat_room chat_room_id w)
  | DeactivateChatRoom chat_room_id => snd (deactivate_chat_room chat_room_id now w)
  | SendMessage message => snd (send_message message now w)
  | GetMessage message_id => snd (get_message message_id w)
  | UpdateMessage message_id message_update =>
      snd (update_message message_id message_update now w)
  | MarkMessagesAsRead chat_room_id user_id =>
      snd (mark_messages_as_read chat_room_id user_id now w)
  | GetStatistics user_id => snd (get_statistics user_id w)
  end.

(** [steps_by allowed w w']: [w'] is reached from [w] by serving requests,
    each of them allowed in the world it arrives in. *)
Inductive steps_by (allowed : World -> request -> Prop) (w : World) : World -> Prop :=
| steps_refl : steps_by allowed w w
| steps_step : forall w' req now,
    steps_by allowed w w' -> allowed w' req ->
    steps_by allowed w (handle req now w').

Definition any_request (_ : World) (_ : request) : Prop := True.

Definition steps : World -> World -> Prop := steps_by any_request.

(** The service at start-up: empty tables, nothing posted yet, and an
    arbitrary notifications endpoint. *)
Definition initial (endpoint : nat -> post_outcome) : World :=
  mkWorld [] [] 1 1 endpoint [] [].

Definition reachable_by (allowed : World -> request -> Prop) (w : World) : Prop :=
  exists endpoint, steps_by allowed (initial endpoint) w.

Definition reachable : World -> Prop := reachable_by any_request.

(** *** The error taxonomy of the specification, as raised by the handlers *)

Definition Conflict (trade_offer_id : Z) : exn :=
  HTTPException 400
    ("Chat room already exists for trade offer " ++ str trade_offer_id)%string.

Definition NotFound_chat_room (chat_room_id : Z) : exn :=
  HTTPException 404 ("Chat room " ++ str chat_room_id ++ " not found")%string.

Definition InvalidState (chat_room_id : Z) : exn :=
  HTTPException 400 ("Chat room " ++ str chat_room_id ++ " is not active")%string.

Definition Forbidden_sender : exn :=
  HTTPException 400 "Sender is not a participant in this chat room".

Definition read_status : string := MessageStatus.value MessageStatus.read.

(** *** Statements of the specification, in its own words *)

(** A message that counts as unread for [u]: it lies in one of the rooms
    [u] participates in, its status is not [read] and [u] did not send it. *)
Definition spec_unread_of_user (u : string) (w : World) (m : MessageDB.t) : bool :=
  existsb (fun r => is_participant u r && (ChatRoomDB.id r =? MessageDB.chat_room_id m))
    (chat_rooms w)
  && negb (String.eqb (MessageDB.status m) read_status)
  && negb (String.eqb (MessageDB.sender_id m) u).

(** The scope [get_statistics] really works on: the user's rooms when
    [user_id] is true (given and not empty), else all rooms. *)
Definition scope (user_id : option string) (w : World) : list ChatRoomDB.t :=
  match user_id with
  | Some u => if truthy_str user_id then filter (is_participant u) (chat_rooms w)
              else chat_rooms w
  | None => chat_rooms w
  end.

(** The room columns of a listing entry. *)
Definition room_of (x : ChatRoomWithLastMessage.t) : ChatRoomDB.t :=
  ChatRoomDB.mk (ChatRoomWithLastMessage.id x)
    (ChatRoomWithLastMessage.trade_offer_id x)
    (ChatRoomWithLastMessage.user1_id x) (ChatRoomWithLastMessage.user2_id x)
    (ChatRoomWithLastMessage.is_active x) (ChatRoomWithLastMessage.last_message_at x)
    (ChatRoomWithLastMessage.created_at x) (ChatRoomWithLastMessage.updated_at x).

(** The identity and the participants of a room. *)
Definition room_key (r : ChatRoomDB.t) : Z * Z * string * string :=
  (ChatRoomDB.id r, ChatRoomDB.trade_offer_id r,
   ChatRoomDB.user1_id r, ChatRoomDB.user2_id r).

(** *** Worlds used in the examples *)

Definition always (o : post_outcome) : nat -> post_outcome := fun _ => o.

Definition w_room : World :=
  handle (CreateChatRoom (ChatRoomCreate.mk 100 "alice" "bob")) 10
    (initial (always (Response 500))).

Definition w_sent : World :=
  handle (SendMessage (MessageCreate.mk 1 "alice" "hi")) 20 w_room.

Definition w_read : World :=
  handle (UpdateMessage 1 (MessageUpdate.mk (Some MessageStatus.read))) 30 w_sent.

Definition w_regressed : World :=
  handle (UpdateMessage 1 (MessageUpdate.mk (Some MessageStatus.sent))) 40 w_read.

Definition w_inactive : World :=
  handle (DeactivateChatRoom 1) 50 w_room.

(** A room one of whose participants has the empty string as user id, and a
    message that participant has sent. *)
Definition w_empty_user_id : World :=
  handle (SendMessage (MessageCreate.mk 1 "" "hi")) 20
    (handle (CreateChatRoom (ChatRoomCreate.mk 100 "" "bob")) 10
       (initial (always (Response 201)))).

(** Three rooms of alice: one with an old message, one without any message
    and one with a recent message. *)
Definition w_three_rooms : World :=
  handle (SendMessage (MessageCreate.mk 3 "alice" "new")) 50
    (handle (SendMessage (MessageCreate.mk 1 "alice" "old")) 40
       (handle (CreateChatRoom (ChatRoomCreate.mk 102 "dave" "alice")) 30
          (handle (CreateChatRoom (ChatRoomCreate.mk 101 "alice" "carol")) 20
             (handle (CreateChatRoom (ChatRoomCreate.mk 100 "alice" "bob")) 10
                (initial (always (Response 201))))))).

(** ** Notions used in the statements *)

(** The world after one POST has been issued. *)
Definition after_post (url : string) (json : list (string * string)) (w : World)
    : World :=
  mkWorld (chat_rooms w) (messages w) (chat_rooms_id_seq w) (messages_id_seq w)
    (notifications_service w) (posted w ++ [(url, json)]) (slept w).

(** Whether the next POST will be answered with 201. *)
Definition next_post_created (w : World) : bool :=
  match notifications_service w (List.length (posted w)) with
  | Response status_code => status_code =? 201
  | Fails _ => false
  end.

(** The row a lookup by primary key finds. *)
Definition room_with_id (chat_room_id : Z) (w : World) : option ChatRoomDB.t :=
  first (filter (fun r => ChatRoomDB.id r =? chat_room_id) (chat_rooms w)).

Definition message_with_id (message_id : Z) (w : World) : option MessageDB.t :=
  first (filter (fun m => MessageDB.id m =? message_id) (messages w)).

(** The row [send_message] inserts and the database it leaves behind. *)
Definition sent_row (message : MessageCreate.t) (now : Z) (w : World) : MessageDB.t :=
  MessageDB.mk (messages_id_seq w) (MessageCreate.chat_room_id message)
    (MessageCreate.sender_id message) (MessageCreate.content message)
    (MessageStatus.value MessageStatus.sent) None now now.

Definition sent_world (message : MessageCreate.t) (now : Z) (chat_room : ChatRoomDB.t)
    (w : World) : World :=
  mkWorld
    (map (fun r => if ChatRoomDB.id r =? ChatRoomDB.id chat_room
                   then set_last_message_at r now now else r) (chat_rooms w))
    (messages w ++ [sent_row message now w])
    (chat_rooms_id_seq w) (messages_id_seq w + 1)
    (notifications_service w) (posted w) (slept w).

(** Well-formed worlds: what the tables guarantee in every reachable state
    (primary keys are unique and below their sequence, every message belongs
    to a stored room) together with the read-timestamp invariant. *)
Record wf (w : World) : Prop := mk_wf {
  wf_read_at : forall m, In m (messages w) ->
      MessageDB.status m = read_status -> MessageDB.read_at m <> None;
  wf_message_ids : NoDup (map MessageDB.id (messages w));
  wf_message_seq : forall m, In m (messages w) -> MessageDB.id m < messages_id_seq w;
  wf_room_ids : NoDup (map ChatRoomDB.id (chat_rooms w));
  wf_room_seq : forall r, In r (chat_rooms w) -> ChatRoomDB.id r < chat_rooms_id_seq w;
  wf_foreign_key : forall m, In m (messages w) ->
      exists r, In r (chat_rooms w) /\ ChatRoomDB.id r = MessageDB.chat_room_id m
}.

(** A request that does not take a message with a read timestamp back to a
    status other than [read]. *)
Definition no_regression (w : World) (req : request) : Prop :=
  match req with
  | UpdateMessage message_id message_update =>
      forall new_status,
        MessageUpdate.status message_update = Some new_status ->
        new_status <> MessageStatus.read ->
        forall m, In m (messages w) -> MessageDB.id m = message_id ->
                  MessageDB.read_at m = None
  | _ => True
  end.

(** Only messages with status [read] carry a read timestamp. *)
Definition read_at_only_if_read (w : World) : Prop :=
  forall m, In m (messages w) ->
    MessageDB.read_at m <> None -> MessageDB.status m = read_status.

(** The rows selected for a user, before ordering and paging. *)
Definition in_listing (user_id : string) (active_only : bool) (r : ChatRoomDB.t)
    : bool :=
  is_participant user_id r && (negb active_only || ChatRoomDB.is_active r).

(** The user the statistics are scoped to, if any: the test [if user_id:]
    sends both a missing and an empty user id to the global branch. *)
Definition scoped_to (user_id : option string) : option string :=
  if truthy_str user_id then user_id else None.

(** The message of the example worlds, once read and once taken back. *)
Definition m_read : MessageDB.t :=
  MessageDB.mk 1 1 "alice" "hi" "read" (Some 30) 20 30.

Definition m_regressed : MessageDB.t :=
  MessageDB.mk 1 1 "alice" "hi" "sent" (Some 30) 20 40.

(** ** Notions used in the further properties *)

(** The row a lookup by trade offer finds. *)
Definition room_with_trade_offer (trade_offer_id : Z) (w : World)
    : option ChatRoomDB.t :=
  first (filter (fun r => ChatRoomDB.trade_offer_id r =? trade_offer_id) (chat_rooms w)).

(** The row [create_chat_room] inserts and the world it leaves behind. *)
Definition created_row (chat_room : ChatRoomCreate.t) (now : Z) (w : World)
    : ChatRoomDB.t :=
  ChatRoomDB.mk (chat_rooms_id_seq w) (ChatRoomCreate.trade_offer_id chat_room)
    (ChatRoomCreate.user1_id chat_room) (ChatRoomCreate.user2_id chat_room)
    true None now now.

Definition created_world (chat_room : ChatRoomCreate.t) (now : Z) (w : World) : World :=
  mkWorld (chat_rooms w ++ [created_row chat_room now w]) (messages w)
    (chat_rooms_id_seq w + 1) (messages_id_seq w)
    (notifications_service w) (posted w) (slept w).

(** The world after the room with key [pk] has been deactivated. *)
Definition deactivated_world (pk : Z) (now : Z) (w : World) : World :=
  mkWorld
    (map (fun r => if ChatRoomDB.id r =? pk then set_is_active r false now else r)
       (chat_rooms w))
    (messages w) (chat_rooms_id_seq w) (messages_id_seq w)
    (notifications_service w) (posted w) (slept w).

(** The assignment [update_message] makes to the row it has loaded. *)
Definition stamps_read_at (new_status : MessageStatus.t) (message : MessageDB.t) : bool :=
  MessageStatus.eqb new_status MessageStatus.read
  && negb (truthy (MessageDB.read_at message)).

Definition assign_status (new_status : MessageStatus.t) (stamp : bool) (now : Z)
    (m : MessageDB.t) : MessageDB.t :=
  set_updated_at
    (let m1 := set_status m (MessageStatus.value new_status) in
     if stamp then set_read_at m1 (Some now) else m1)
    now.

(** The filter and the assignment of the bulk update of
    [mark_messages_as_read]. *)
Definition unread_from_others (chat_room_id : Z) (user_id : string) (m : MessageDB.t)
    : bool :=
  (MessageDB.chat_room_id m =? chat_room_id)
  && negb (String.eqb (MessageDB.sender_id m) user_id)
  && negb (String.eqb (MessageDB.status m) (MessageStatus.value MessageStatus.read)).

Definition mark_read (now : Z) (m : MessageDB.t) : MessageDB.t :=
  set_updated_at
    (set_read_at (set_status m (MessageStatus.value MessageStatus.read)) (Some now))
    now.

(** The columns of a message that no handler assigns. *)
Definition message_key (m : MessageDB.t) : Z * Z * string * string * Z :=
  (MessageDB.id m, MessageDB.chat_room_id m, MessageDB.sender_id m,
   MessageDB.content m, MessageDB.created_at m).

(** The messages of a room, in insertion order, and the creation time of the
    one inserted last. *)
Definition room_messages (chat_room_id : Z) (w : World) : list MessageDB.t :=
  filter (fun m => MessageDB.chat_room_id m =? chat_room_id) (messages w).

Definition last_inserted_at (chat_room_id : Z) (w : World) : option Z :=
  option_map MessageDB.created_at
    (List.last (map Some (room_messages chat_room_id w)) None).

(** The unread count [list_chat_rooms] shows for a room and a viewer. *)
Definition unread_count_of (chat_room_id : Z) (user_id : string) (w : World) : Z :=
  or_0 (scalar_count
          (filter (fun m => (MessageDB.chat_room_id m =? chat_room_id)
                            && is_unread_for user_id m)
             (messages w))).

(** The request [send_message_notification] posts for a message. *)
Definition notifications_url : string :=
  (NOTIFICATION_SERVICE_URL ++ "/api/v1/notifications")%string.

Definition notification_payload (recipient_id sender_id : string)
    : list (string * string) :=
  [("user_id", recipient_id);
   ("type", "new_message");
   ("title", ("New Message " ++ title_suffix)%string);
   ("body", "You have a new message");
   ("related_user_id", sender_id)].

(** The participant [send_message] notifies. *)
Definition recipient_of (sender_id : string) (chat_room : ChatRoomDB.t) : string :=
  if String.eqb sender_id (ChatRoomDB.user1_id chat_room)
  then ChatRoomDB.user2_id chat_room
  else ChatRoomDB.user1_id chat_room.

(** The entry [list_chat_rooms] builds for a room. *)
Definition listing_entry (user_id : string) (w : World) (room : ChatRoomDB.t)
    : ChatRoomWithLastMessage.t :=
  let last_message :=
    first (MessageSort.sort (room_messages (ChatRoomDB.id room) w)) in
  ChatRoomWithLastMessage.mk
    (ChatRoomDB.id room) (ChatRoomDB.trade_offer_id room)
    (ChatRoomDB.user1_id room) (ChatRoomDB.user2_id room)
    (ChatRoomDB.is_active room) (ChatRoomDB.last_message_at room)
    (option_map MessageDB.content last_message)
    (option_map MessageDB.sender_id last_message)
    (unread_count_of (ChatRoomDB.id room) user_id w)
    (ChatRoomDB.created_at room) (ChatRoomDB.updated_at room).

(** Values that fit their column on every engine: a 32-bit INTEGER and a
    VARCHAR of the declared length. *)
Definition fits_int32 (z : Z) : Prop := - 2 ^ 31 <= z <= 2 ^ 31 - 1.

Definition fits_varchar (n : nat) (s : string) : Prop := (String.length s <= n)%nat.

(** The sum of a list of integers. *)
Definition sumZ (l : list Z) : Z := fold_right Z.add 0 l.

(** The ways a request changes the tables. *)
Inductive db_change (w : World) : World -> Prop :=
| change_none : db_change w w
| change_create : forall chat_room now,
    room_with_trade_offer (ChatRoomCreate.trade_offer_id chat_room) w = None ->
    db_change w (created_world chat_room now w)
| change_deactivate : forall chat_room now,
    In chat_room (chat_rooms w) ->
    db_change w (deactivated_world (ChatRoomDB.id chat_room) now w)
| change_send : forall message now chat_room url data,
    room_with_id (MessageCreate.chat_room_id message) w = Some chat_room ->
    ChatRoomDB.is_active chat_room = true ->
    str_in (MessageCreate.sender_id message)
      [ChatRoomDB.user1_id chat_room; ChatRoomDB.user2_id chat_room] = true ->
    db_change w (after_post url data (sent_world message now chat_room w))
| change_update : forall message new_status now,
    In message (messages w) ->
    db_change w
      (snd (update_messages (fun m => MessageDB.id m =? MessageDB.id message)
              (assign_status new_status (stamps_read_at new_status message) now) w))
| change_mark_read : forall chat_room_id user_id now,
    db_change w
      (snd (update_messages (unread_from_others chat_room_id user_id)
              (mark_read now) w)).

(** The statuses the enumeration allows. *)
Definition is_status (s : string) : Prop :=
  s = "sent" \/ s = "delivered" \/ s = "read".

(** What holds of the rows in every reachable state, beyond [wf]. *)
Record consistent (w : World) : Prop := mk_consistent {
  trade_offers_unique : NoDup (map ChatRoomDB.trade_offer_id (chat_rooms w));
  statuses_valid : forall m, In m (messages w) -> is_status (MessageDB.status m);
  senders_participate : forall m, In m (messages w) ->
      exists r, In r (chat_rooms w)
                /\ ChatRoomDB.id r = MessageDB.chat_room_id m
                /\ str_in (MessageDB.sender_id m)
                     [ChatRoomDB.user1_id r; ChatRoomDB.user2_id r] = true;
  last_message_at_tracks : forall r, In r (chat_rooms w) ->
      ChatRoomDB.last_message_at r = last_inserted_at (ChatRoomDB.id r) w
}.

(** * Properties *)

(** ** The notification dispatcher *)

(** The function under the decorator never raises: whatever the endpoint
    does, the [except Exception] clause turns it into a returned boolean. *)
Lemma wrapped_never_raises url data w :
  send_notification_with_retry__wrapped url data w
  = (inl (next_post_created w), after_post url data w).
Proof.
  unfold send_notification_with_retry__wrapped, try_except, bind, client_post,
    next_post_created, after_post, raise_for_status, ret, raise.
  destruct (notifications_service w (List.length (posted w))) as [code | e];
    [ | reflexivity ].
  destruct (code =? 201); [ reflexivity | ].
  destruct ((200 <=? code) && (code <=? 299)); reflexivity.
Qed.

(** A function that returns at its first call is called once by the
    retrying loop, which then hands its value on. *)
Lemma retrying_returns_at_once {A} retry wait max_attempt_number attempts_left
    (fn : IO A) w a w' :
  fn w = (inl a, w') ->
  tenacity.retrying retry wait max_attempt_number attempts_left fn w = (inl a, w').
Proof.
  intros Hfn. destruct attempts_left; simpl; rewrite Hfn; reflexivity.
Qed.

(** Hence the decorated dispatcher posts exactly once and never sleeps. *)
Lemma send_notification_with_retry_once url data w :
  send_notification_with_retry url data w
  = (inl (next_post_created w), after_post url data w).
Proof.
  unfold send_notification_with_retry, tenacity.retry.
  apply retrying_returns_at_once, wrapped_never_raises.
Qed.

(** The retrying loop itself does what the decorator promises.  Take the
    body of the dispatcher without its [except] clause: against an endpoint
    that answers 500 it is called three times, with waits of 1 and 2
    between the calls, and the loop ends in [RetryError]. *)
Lemma retry_of_uncaught_body url data w :
  notifications_service w = always (Response 500) ->
  let fn : IO bool :=
    (status_code <- client_post url data ;;
     if status_code =? 201 then ret true
     else (raise_for_status status_code ;; ret false)) in
  let r := tenacity.retry tenacity.retry_if_exception_type 3
             (tenacity.wait_exponential 1 1 10) fn w in
  fst r = inr RetryError
  /\ posted (snd r) = posted w ++ [(url, data); (url, data); (url, data)]
  /\ slept (snd r) = slept w ++ [1; 2].
Proof.
  intros Hsvc. cbv beta zeta.
  unfold tenacity.retry, tenacity.retrying, bind, client_post, raise, ret,
    raise_for_status, tenacity.sleep.
  simpl. rewrite !Hsvc. unfold always. simpl.
  rewrite <- ?app_assoc. simpl. repeat split; reflexivity.
Qed.

(** The back-off schedule of the decorator: 1, 2, 4, 8, then capped at 10. *)
Lemma wait_exponential_schedule :
  map (tenacity.wait_exponential 1 1 10) [1; 2; 3; 4; 5; 6] = [1; 2; 4; 8; 10; 10].
Proof. reflexivity. Qed.

Lemma wait_exponential_bounds n :
  1 <= n -> 1 <= tenacity.wait_exponential 1 1 10 n <= 10.
Proof.
  intros Hn. unfold tenacity.wait_exponential.
  assert (0 < 2 ^ (n - 1)) by (apply Z.pow_pos_nonneg; lia).
  lia.
Qed.

(** C1: the notifications service answers every POST with HTTP 500.  The
    dispatcher is meant to try three times with waits of 1 and 2; it posts
    once, does not wait, and returns [False]. *)
Theorem dispatch_http_500_single_attempt :
  let w := initial (always (Response 500)) in
  let r := send_notification_with_retry "http://n/api/v1/notifications"
             [("user_id", "bob")] w in
  fst r = inl false
  /\ List.length (posted (snd r)) = 1%nat
  /\ slept (snd r) = [].
Proof. cbv beta zeta. rewrite send_notification_with_retry_once. repeat split. Qed.

(** The same with a transport failure in place of the HTTP status. *)
Lemma dispatch_transport_error_single_attempt :
  let w := initial (always (Fails RequestError)) in
  let r := send_notification_with_retry "http://n/api/v1/notifications"
             [("user_id", "bob")] w in
  fst r = inl false
  /\ List.length (posted (snd r)) = 1%nat
  /\ slept (snd r) = [].
Proof. cbv beta zeta. rewrite send_notification_with_retry_once. repeat split. Qed.

(** ** List and query facts *)

Lemma first_filter_Some {A} (p : A -> bool) l a :
  first (filter p l) = Some a -> In a l /\ p a = true.
Proof.
  unfold first. intros H.
  assert (Hin : In a (filter p l)).
  { destruct (filter p l); simpl in H; [discriminate | ].
    injection H as ->. now left. }
  now apply filter_In in Hin.
Qed.

Lemma first_filter_None {A} (p : A -> bool) l :
  first (filter p l) = None -> forall a, In a l -> p a = false.
Proof.
  unfold first. intros H a Hin.
  destruct (p a) eqn:Hp; [ | reflexivity ].
  assert (Hf : In a (filter p l)) by (apply filter_In; auto).
  destruct (filter p l); [ destruct Hf | discriminate ].
Qed.

Lemma NoDup_map_eq {A B} (f : A -> B) l a b :
  NoDup (map f l) -> In a l -> In b l -> f a = f b -> a = b.
Proof.
  induction l as [ | x l IH]; simpl; intros Hnd Ha Hb Hab; [ destruct Ha | ].
  inversion Hnd as [ | ? ? Hnotin Hnd']; subst.
  destruct Ha as [-> | Ha], Hb as [-> | Hb]; auto.
  - exfalso. apply Hnotin. rewrite Hab. now apply in_map.
  - exfalso. apply Hnotin. rewrite <- Hab. now apply in_map.
Qed.

Lemma map_map_same {A B} (g : A -> A) (f : A -> B) l :
  (forall a, f (g a) = f a) -> map f (map g l) = map f l.
Proof. intros H. rewrite map_map. apply map_ext. exact H. Qed.

Lemma NoDup_snoc_fresh l (x : Z) :
  NoDup l -> (forall y, In y l -> y < x) -> NoDup (l ++ [x]).
Proof.
  intros Hnd Hlt. apply NoDup_app; [ exact Hnd | repeat constructor; intros [] | ].
  intros y Hy [<- | []]. specialize (Hlt _ Hy). lia.
Qed.

(** ** Well-formed worlds *)

Lemma initial_wf endpoint : wf (initial endpoint).
Proof.
  constructor; simpl; try constructor; intros ? [].
Qed.

(** The dispatcher only touches the log of posted requests. *)
Lemma send_message_notification_once message recipient_id w :
  exists url data,
    send_message_notification message recipient_id w = (inl tt, after_post url data w).
Proof.
  unfold send_message_notification, bind.
  rewrite send_notification_with_retry_once. unfold ret. eauto.
Qed.

Lemma after_post_wf url data w : wf w -> wf (after_post url data w).
Proof. intros [H1 H2 H3 H4 H5 H6]. constructor; simpl; assumption. Qed.

Arguments str_in : simpl never.

Ltac run_io :=
  unfold bind, ret, raise, query_chat_rooms, query_messages, insert_chat_room,
    insert_message, update_chat_room, update_messages; simpl.

Lemma create_chat_room_wf chat_room now w :
  wf w -> wf (snd (create_chat_room chat_room now w)).
Proof.
  intros Hwf. unfold create_chat_room. run_io.
  destruct (first _); simpl; [ exact Hwf | ].
  destruct (fits_integer _ && fits_integer _); simpl; [ | exact Hwf ].
  destruct Hwf as [H1 H2 H3 H4 H5 H6].
  constructor; simpl; auto.
  - rewrite map_app. simpl. apply NoDup_snoc_fresh; auto.
    intros y Hy. apply in_map_iff in Hy as (r & <- & Hr). auto.
  - intros r Hr. apply in_app_or in Hr as [Hr | [<- | []]]; simpl.
    + specialize (H5 _ Hr). lia.
    + lia.
  - intros m Hm. destruct (H6 _ Hm) as (r & Hr & Heq).
    exists r. split; [ apply in_or_app; now left | exact Heq ].
Qed.

(** Rewriting columns other than the key keeps the room table well formed. *)
Lemma update_rooms_wf w (f : ChatRoomDB.t -> ChatRoomDB.t) :
  (forall r, ChatRoomDB.id (f r) = ChatRoomDB.id r) ->
  wf w ->
  wf (mkWorld (map f (chat_rooms w)) (messages w) (chat_rooms_id_seq w)
        (messages_id_seq w) (notifications_service w) (posted w) (slept w)).
Proof.
  intros Hid [H1 H2 H3 H4 H5 H6]. constructor; simpl; auto.
  - rewrite map_map_same; auto.
  - intros r Hr. apply in_map_iff in Hr as (r0 & <- & Hr0). rewrite Hid. auto.
  - intros m Hm. destruct (H6 _ Hm) as (r & Hr & Heq).
    exists (f r). split; [ now apply in_map | now rewrite Hid ].
Qed.

Lemma deactivate_chat_room_wf chat_room_id now w :
  wf w -> wf (snd (deactivate_chat_room chat_room_id now w)).
Proof.
  intros Hwf. unfold deactivate_chat_room. run_io.
  destruct (first _) as [chat_room | ]; simpl; [ | exact Hwf ].
  destruct (ChatRoomDB.is_active chat_room); simpl; [ | exact Hwf ].
  apply update_rooms_wf; [ | exact Hwf ].
  intros r. destruct (ChatRoomDB.id r =? ChatRoomDB.id chat_room); reflexivity.
Qed.

(** What [send_message] does, case by case. *)
Lemma send_message_cases message now w :
  match room_with_id (MessageCreate.chat_room_id message) w with
  | None =>
      send_message message now w
      = (inr (NotFound_chat_room (MessageCreate.chat_room_id message)), w)
  | Some chat_room =>
      if negb (ChatRoomDB.is_active chat_room) then
        send_message message now w
        = (inr (InvalidState (MessageCreate.chat_room_id message)), w)
      else if negb (str_in (MessageCreate.sender_id message)
                      [ChatRoomDB.user1_id chat_room; ChatRoomDB.user2_id chat_room]) then
        send_message message now w = (inr Forbidden_sender, w)
      else
        exists url data,
          send_message message now w
          = (inl (sent_row message now w),
             after_post url data (sent_world message now chat_room w))
  end.
Proof.
  unfold send_message, room_with_id. run_io.
  destruct (first _) as [chat_room | ]; [ | reflexivity ].
  destruct (ChatRoomDB.is_active chat_room); simpl; [ | reflexivity ].
  destruct (str_in _ _); simpl; [ | reflexivity ].
  match goal with
  | |- context [send_message_notification ?m ?r ?w0] =>
      destruct (send_message_notification_once m r w0) as (url & data & ->)
  end.
  exists url, data. reflexivity.
Qed.

Lemma sent_world_wf message now chat_room w :
  room_with_id (MessageCreate.chat_room_id message) w = Some chat_room ->
  wf w -> wf (sent_world message now chat_room w).
Proof.
  intros Hroom Hwf.
  apply first_filter_Some in Hroom as [Hin Hid]. apply Z.eqb_eq in Hid.
  set (f := fun r => if ChatRoomDB.id r =? ChatRoomDB.id chat_room
                     then set_last_message_at r now now else r).
  assert (Hf : forall r, ChatRoomDB.id (f r) = ChatRoomDB.id r).
  { intros r. unfold f. destruct (_ =? _); reflexivity. }
  pose proof (update_rooms_wf w f Hf Hwf) as [H1 H2 H3 H4 H5 H6]. simpl in *.
  unfold sent_world. fold f. constructor; simpl; auto.
  - intros m Hm Hst. apply in_app_or in Hm as [Hm | [<- | []]]; auto.
    discriminate Hst.
  - rewrite map_app. simpl. apply NoDup_snoc_fresh; auto.
    intros y Hy. apply in_map_iff in Hy as (m & <- & Hm). auto.
  - intros m Hm. apply in_app_or in Hm as [Hm | [<- | []]]; simpl.
    + specialize (H3 _ Hm). lia.
    + lia.
  - intros m Hm. apply in_app_or in Hm as [Hm | [<- | []]]; auto.
    simpl. exists (f chat_room). split; [ now apply in_map | ].
    rewrite Hf. exact Hid.
Qed.

Lemma send_message_wf message now w :
  wf w -> wf (snd (send_message message now w)).
Proof.
  intros Hwf. pose proof (send_message_cases message now w) as H.
  destruct (room_with_id _ w) as [chat_room | ] eqn:Hroom.
  - destruct (negb (ChatRoomDB.is_active chat_room)); [ rewrite H; exact Hwf | ].
    destruct (negb (str_in _ _)); [ rewrite H; exact Hwf | ].
    destruct H as (url & data & ->). simpl.
    apply after_post_wf. now apply sent_world_wf.
  - rewrite H. exact Hwf.
Qed.

(** Rewriting columns other than the keys keeps the message table well
    formed, provided the rewritten rows still carry a read timestamp
    whenever their status is [read]. *)
Lemma update_messages_wf w (g : MessageDB.t -> MessageDB.t) :
  (forall m, MessageDB.id (g m) = MessageDB.id m) ->
  (forall m, MessageDB.chat_room_id (g m) = MessageDB.chat_room_id m) ->
  (forall m, In m (messages w) ->
     MessageDB.status (g m) = read_status -> MessageDB.read_at (g m) <> None) ->
  wf w ->
  wf (mkWorld (chat_rooms w) (map g (messages w)) (chat_rooms_id_seq w)
        (messages_id_seq w) (notifications_service w) (posted w) (slept w)).
Proof.
  intros Hid Hroom Hread [H1 H2 H3 H4 H5 H6]. constructor; simpl; auto.
  - intros m Hm. apply in_map_iff in Hm as (m0 & <- & Hm0). auto.
  - rewrite map_map_same; auto.
  - intros m Hm. apply in_map_iff in Hm as (m0 & <- & Hm0). rewrite Hid. auto.
  - intros m Hm. apply in_map_iff in Hm as (m0 & <- & Hm0). rewrite Hroom. auto.
Qed.

Lemma status_value_read s :
  MessageStatus.value s = read_status -> s = MessageStatus.read.
Proof. destruct s; simpl; intros H; try discriminate H; reflexivity. Qed.

Lemma update_message_wf message_id message_update now w :
  wf w -> wf (snd (update_message message_id message_update now w)).
Proof.
  intros Hwf. unfold update_message. run_io.
  destruct (first _) as [message | ] eqn:Hfirst; simpl; [ | exact Hwf ].
  destruct (MessageUpdate.status message_update) as [new_status | ]; simpl;
    [ | exact Hwf ].
  destruct (negb _ || _) eqn:Hdirty; simpl; [ | exact Hwf ].
  apply first_filter_Some in Hfirst as [Hin _].
  apply update_messages_wf; auto.
  - intros m. destruct (_ =? _); [ | reflexivity ].
    destruct (_ && _); reflexivity.
  - intros m. destruct (_ =? _); [ | reflexivity ].
    destruct (_ && _); reflexivity.
  - intros m Hm. destruct (MessageDB.id m =? MessageDB.id message) eqn:Heq.
    + apply Z.eqb_eq in Heq.
      assert (m = message) as ->
        by (eapply NoDup_map_eq; eauto using wf_message_ids).
      destruct (MessageStatus.eqb new_status MessageStatus.read
                && negb (truthy (MessageDB.read_at message))) eqn:Hstamp; simpl.
      * discriminate.
      * intros Hst. apply status_value_read in Hst. subst new_status.
        simpl in Hstamp. destruct (MessageDB.read_at message); discriminate.
    + apply (wf_read_at w Hwf m Hm).
Qed.

Lemma mark_messages_as_read_wf chat_room_id user_id now w :
  wf w -> wf (snd (mark_messages_as_read chat_room_id user_id now w)).
Proof.
  intros Hwf. unfold mark_messages_as_read. run_io.
  destruct (first _) as [chat_room | ]; simpl; [ | exact Hwf ].
  destruct (str_in _ _); simpl; [ | exact Hwf ].
  apply update_messages_wf; auto.
  - intros m. destruct (_ && _); reflexivity.
  - intros m. destruct (_ && _); reflexivity.
  - intros m Hm. destruct (_ && _); simpl; [ discriminate | ].
    apply (wf_read_at w Hwf m Hm).
Qed.

Lemma handle_wf req now w : wf w -> wf (handle req now w).
Proof.
  intros Hwf. destruct req; simpl.
  - now apply create_chat_room_wf.
  - exact Hwf.
  - unfold get_chat_room. run_io. destruct (first _); exact Hwf.
  - now apply deactivate_chat_room_wf.
  - now apply send_message_wf.
  - unfold get_message. run_io. destruct (first _); exact Hwf.
  - now apply update_message_wf.
  - now apply mark_messages_as_read_wf.
  - unfold get_statistics.
    destruct user_id as [u | ]; [ destruct (truthy_str (Some u)) | ];
      unfold user_statistics, global_statistics; simpl; exact Hwf.
Qed.

Lemma steps_by_wf allowed w w' : steps_by allowed w w' -> wf w -> wf w'.
Proof. induction 1; intros Hwf; [ exact Hwf | apply handle_wf; auto ]. Qed.

Lemma reachable_by_wf allowed w : reachable_by allowed w -> wf w.
Proof. intros [endpoint H]. eapply steps_by_wf; eauto using initial_wf. Qed.

(** ** Example worlds are reachable *)

Lemma w_room_reachable : reachable w_room.
Proof.
  exists (always (Response 500)). unfold w_room.
  apply steps_step; [ apply steps_refl | exact I ].
Defined.

Lemma w_sent_reachable : reachable w_sent.
Proof.
  destruct w_room_reachable as [endpoint H]. exists endpoint. unfold w_sent.
  apply steps_step; [ exact H | exact I ].
Defined.

Lemma w_read_reachable : reachable w_read.
Proof.
  destruct w_sent_reachable as [endpoint H]. exists endpoint. unfold w_read.
  apply steps_step; [ exact H | exact I ].
Defined.

Lemma w_regressed_reachable : reachable w_regressed.
Proof.
  destruct w_read_reachable as [endpoint H]. exists endpoint. unfold w_regressed.
  apply steps_step; [ exact H | exact I ].
Defined.

Lemma w_inactive_reachable : reachable w_inactive.
Proof.
  destruct w_room_reachable as [endpoint H]. exists endpoint. unfold w_inactive.
  apply steps_step; [ exact H | exact I ].
Defined.

(** ** C2: dispatch never raises, sending survives a failed notification *)

(** C2.  The dispatcher returns a boolean in every world, whatever the
    notifications endpoint does, and never raises; and [send_message], once
    the room is found active and the sender is one of its participants,
    returns the row it has just stored, with status [sent], whatever the
    endpoint does. *)
Theorem send_message_returns_sent_message :
  (forall url data w0, exists b w1,
      send_notification_with_retry url data w0 = (inl b, w1))
  /\ (forall message now w chat_room,
        room_with_id (MessageCreate.chat_room_id message) w = Some chat_room ->
        ChatRoomDB.is_active chat_room = true ->
        str_in (MessageCreate.sender_id message)
          [ChatRoomDB.user1_id chat_room; ChatRoomDB.user2_id chat_room] = true ->
        exists w',
          send_message message now w = (inl (sent_row message now w), w')
          /\ MessageDB.status (sent_row message now w)
             = MessageStatus.value MessageStatus.sent
          /\ messages w' = messages w ++ [sent_row message now w]).
Proof.
  split.
  - intros url data w0. rewrite send_notification_with_retry_once. eauto.
  - intros message now w chat_room Hroom Hactive Hsender.
    pose proof (send_message_cases message now w) as H.
    rewrite Hroom, Hactive, Hsender in H. simpl in H.
    destruct H as (url & data & ->). eexists. split; [ reflexivity | ].
    split; reflexivity.
Qed.

Lemma send_message_returns_sent_message_witness :
  let message := MessageCreate.mk 1 "alice" "hi" in
  room_with_id 1 w_room = Some (ChatRoomDB.mk 1 100 "alice" "bob" true None 10 10)
  /\ exists w',
       send_message message 20 w_room = (inl (sent_row message 20 w_room), w')
       /\ MessageDB.status (sent_row message 20 w_room) = "sent"
       /\ messages w' = messages w_room ++ [sent_row message 20 w_room].
Proof.
  cbv zeta. split; [ reflexivity | ].
  apply (proj2 send_message_returns_sent_message
           (MessageCreate.mk 1 "alice" "hi") 20
           w_room (ChatRoomDB.mk 1 100 "alice" "bob" true None 10 10));
    reflexivity.
Defined.

(** ** C3: status and read timestamp *)

Lemma status_eqb_read_false s :
  s <> MessageStatus.read -> MessageStatus.eqb s MessageStatus.read = false.
Proof. destruct s; simpl; congruence. Qed.

Lemma handle_read_at_only_if_read req now w :
  no_regression w req -> read_at_only_if_read w ->
  read_at_only_if_read (handle req now w).
Proof.
  intros Hallowed Hinv. destruct req; simpl.
  - unfold create_chat_room. run_io.
    destruct (first _); simpl;
      [ | destruct (fits_integer _ && fits_integer _) ]; exact Hinv.
  - exact Hinv.
  - unfold get_chat_room. run_io. destruct (first _); exact Hinv.
  - unfold deactivate_chat_room. run_io.
    destruct (first _) as [r | ]; [ destruct (ChatRoomDB.is_active r) | ]; exact Hinv.
  - pose proof (send_message_cases message now w) as H.
    destruct (room_with_id _ w) as [chat_room | ].
    + destruct (negb (ChatRoomDB.is_active chat_room)); [ rewrite H; exact Hinv | ].
      destruct (negb (str_in _ _)); [ rewrite H; exact Hinv | ].
      destruct H as (url & data & ->). simpl.
      intros m Hm. simpl in Hm. apply in_app_or in Hm as [Hm | [<- | []]].
      * now apply Hinv.
      * simpl. congruence.
    + rewrite H. exact Hinv.
  - unfold get_message. run_io. destruct (first _); exact Hinv.
  - unfold update_message. run_io.
    destruct (first _) as [message | ] eqn:Hfirst; simpl; [ | exact Hinv ].
    destruct (MessageUpdate.status message_update) as [new_status | ] eqn:Hst;
      simpl; [ | exact Hinv ].
    destruct (negb _ || _); simpl; [ | exact Hinv ].
    apply first_filter_Some in Hfirst as [_ Hid]. apply Z.eqb_eq in Hid.
    intros m Hm. simpl in Hm. apply in_map_iff in Hm as (m0 & <- & Hm0).
    destruct (MessageDB.id m0 =? MessageDB.id message) eqn:Heq; [ | now apply Hinv ].
    apply Z.eqb_eq in Heq.
    destruct new_status; simpl.
    + intros Hread. exfalso. apply Hread.
      apply (Hallowed _ Hst); [ discriminate | exact Hm0 | congruence ].
    + intros Hread. exfalso. apply Hread.
      apply (Hallowed _ Hst); [ discriminate | exact Hm0 | congruence ].
    + destruct (negb _); reflexivity.
  - unfold mark_messages_as_read. run_io.
    destruct (first _) as [chat_room | ]; simpl; [ | exact Hinv ].
    destruct (str_in _ _); simpl; [ | exact Hinv ].
    intros m Hm. simpl in Hm. apply in_map_iff in Hm as (m0 & <- & Hm0).
    destruct (_ && _); [ reflexivity | now apply Hinv ].
  - unfold get_statistics.
    destruct user_id as [u | ]; [ destruct (truthy_str (Some u)) | ];
      unfold user_statistics, global_statistics; simpl; exact Hinv.
Qed.

Lemma steps_by_read_at_only_if_read allowed w w' :
  (forall w0 req, allowed w0 req -> no_regression w0 req) ->
  steps_by allowed w w' -> read_at_only_if_read w -> read_at_only_if_read w'.
Proof.
  intros Hallowed. induction 1; intros Hinv; [ exact Hinv | ].
  apply handle_read_at_only_if_read; auto.
Qed.

(** C3, as amended.  In every reachable state a message with status [read]
    has a read timestamp.  The converse holds in the states reached without
    a status update that takes a message with a read timestamp back to
    [sent] or [delivered]. *)
Theorem read_status_implies_read_at allowed w m :
  reachable_by allowed w ->
  In m (messages w) ->
  (MessageDB.status m = read_status -> MessageDB.read_at m <> None)
  /\ ((forall w0 req, allowed w0 req -> no_regression w0 req) ->
      MessageDB.read_at m <> None -> MessageDB.status m = read_status).
Proof.
  intros Hreach Hin. split.
  - apply (wf_read_at w (reachable_by_wf allowed w Hreach) m Hin).
  - intros Hallowed. destruct Hreach as [endpoint Hsteps].
    apply (steps_by_read_at_only_if_read allowed _ _ Hallowed Hsteps);
      [ intros ? [] | exact Hin ].
Qed.

Lemma read_status_implies_read_at_witness :
  reachable w_read
  /\ In m_read (messages w_read)
  /\ (MessageDB.status m_read = read_status -> MessageDB.read_at m_read <> None).
Proof.
  split; [ exact w_read_reachable | ].
  split; [ left; reflexivity | ].
  apply (read_status_implies_read_at any_request w_read m_read w_read_reachable).
  left; reflexivity.
Defined.

(** C3 as stated fails: after a message has been read, a status update back
    to [sent] leaves it with a read timestamp and a status that is not
    [read]. *)
Lemma read_at_without_read_status :
  ~ (forall w m, reachable w -> In m (messages w) ->
       (MessageDB.status m = read_status <-> MessageDB.read_at m <> None)).
Proof.
  intros H.
  destruct (H w_regressed m_regressed w_regressed_reachable) as [_ Hback].
  - left; reflexivity.
  - assert (Hst : MessageDB.status m_regressed = read_status)
      by (apply Hback; discriminate).
    discriminate Hst.
Qed.

(** ** C4: marking a room read twice *)

Lemma filter_all_false {A} (p : A -> bool) l :
  (forall a, In a l -> p a = false) -> filter p l = [].
Proof.
  induction l as [ | x l IH]; simpl; intros H; [ reflexivity | ].
  rewrite (H x) by now left. apply IH. intros a Ha. apply H. now right.
Qed.

Lemma map_if_all_false {A} (p : A -> bool) (f : A -> A) l :
  (forall a, In a l -> p a = false) ->
  map (fun a => if p a then f a else a) l = l.
Proof.
  induction l as [ | x l IH]; simpl; intros H; [ reflexivity | ].
  rewrite (H x) by now left. f_equal. apply IH. intros a Ha. apply H. now right.
Qed.

(** A bulk update whose assignment falsifies its own filter matches nothing
    when it is run again. *)
Lemma update_messages_again p f f' w :
  (forall m, p m = true -> p (f m) = false) ->
  update_messages p f' (snd (update_messages p f w))
  = (inl 0, snd (update_messages p f w)).
Proof.
  intros Hp. unfold update_messages. simpl.
  assert (Hnone : forall m,
             In m (map (fun m => if p m then f m else m) (messages w)) ->
             p m = false).
  { intros m Hm. apply in_map_iff in Hm as (m0 & <- & _).
    destruct (p m0) eqn:Hp0; auto. }
  rewrite (filter_all_false p _ Hnone), (map_if_all_false p f' _ Hnone).
  reflexivity.
Qed.

Lemma update_messages_result p f w :
  update_messages p f w
  = (inl (Z.of_nat (List.length (filter p (messages w)))),
     snd (update_messages p f w)).
Proof. reflexivity. Qed.

(** Rows outside the filter of a bulk update stay in the table as they are. *)
Lemma update_messages_keeps p f w m :
  In m (messages w) -> p m = false -> In m (messages (snd (update_messages p f w))).
Proof.
  intros Hm Hp. unfold update_messages. simpl.
  apply in_map_iff. exists m. rewrite Hp. auto.
Qed.

(** Once [mark_messages_as_read] has succeeded, calling it again reports
    zero updated rows and changes nothing; and the first call left every
    message with status [read] untouched. *)
Lemma mark_messages_as_read_again chat_room_id user_id now1 now2 w r1 w1 :
  mark_messages_as_read chat_room_id user_id now1 w = (inl r1, w1) ->
  mark_messages_as_read chat_room_id user_id now2 w1
  = (inl (MarkReadResponse.mk "Messages marked as read" 0), w1)
  /\ (forall m, In m (messages w) -> MessageDB.status m = read_status ->
                In m (messages w1)).
Proof.
  unfold mark_messages_as_read, bind, query_chat_rooms, ret, raise.
  destruct (first (filter _ (chat_rooms w))) as [chat_room | ] eqn:Hroom;
    [ | discriminate ].
  destruct (str_in _ _) eqn:Huser; cbn [negb]; [ | discriminate ].
  match goal with
  | |- context [update_messages ?p0 ?f0 w] => set (p := p0); set (f := f0)
  end.
  rewrite (update_messages_result p f w). cbv beta iota.
  intros H. apply (f_equal snd) in H. cbn [snd] in H. subst w1.
  change (chat_rooms (snd (update_messages p f w))) with (chat_rooms w).
  rewrite Hroom, Huser. cbn [negb].
  split.
  - rewrite update_messages_again; [ reflexivity | ].
    intros m _. unfold p, f. simpl. rewrite andb_false_r. reflexivity.
  - intros m Hm Hst. apply update_messages_keeps; [ exact Hm | ].
    unfold p. unfold read_status in Hst. rewrite Hst. simpl. apply andb_false_r.
Qed.

(** For a stored room and one of its participants the call succeeds. *)
Lemma mark_messages_as_read_succeeds chat_room_id user_id now w chat_room :
  room_with_id chat_room_id w = Some chat_room ->
  str_in user_id [ChatRoomDB.user1_id chat_room; ChatRoomDB.user2_id chat_room] = true ->
  exists n w1,
    mark_messages_as_read chat_room_id user_id now w
    = (inl (MarkReadResponse.mk "Messages marked as read" n), w1).
Proof.
  unfold room_with_id. intros Hroom Huser.
  unfold mark_messages_as_read, bind, query_chat_rooms, ret, raise.
  rewrite Hroom, Huser. cbn [negb].
  match goal with
  | |- context [update_messages ?p ?f w] => rewrite (update_messages_result p f w)
  end.
  cbv beta iota. eauto.
Qed.

(** C4.  For every stored room and every participant of it,
    [mark_messages_as_read] succeeds, and calling it again right away (at
    any later instant) reports an updated count of 0 and leaves the whole
    world, hence every read timestamp, as it was.  Moreover the first call
    already left every message with status [read] untouched. *)
Theorem mark_messages_as_read_idempotent chat_room_id user_id now1 now2 w chat_room :
  room_with_id chat_room_id w = Some chat_room ->
  str_in user_id [ChatRoomDB.user1_id chat_room; ChatRoomDB.user2_id chat_room] = true ->
  exists n w1,
    mark_messages_as_read chat_room_id user_id now1 w
    = (inl (MarkReadResponse.mk "Messages marked as read" n), w1)
    /\ mark_messages_as_read chat_room_id user_id now2 w1
       = (inl (MarkReadResponse.mk "Messages marked as read" 0), w1)
    /\ (forall m, In m (messages w) -> MessageDB.status m = read_status ->
                  In m (messages w1)).
Proof.
  intros Hroom Huser.
  destruct (mark_messages_as_read_succeeds chat_room_id user_id now1 w chat_room
              Hroom Huser) as (n & w1 & Hfirst).
  exists n, w1. split; [ exact Hfirst | ].
  exact (mark_messages_as_read_again _ _ _ now2 _ _ _ Hfirst).
Qed.

Lemma mark_messages_as_read_idempotent_witness :
  room_with_id 1 w_sent = Some (ChatRoomDB.mk 1 100 "alice" "bob" true (Some 20) 10 20)
  /\ exists n w1,
       mark_messages_as_read 1 "bob" 70 w_sent
       = (inl (MarkReadResponse.mk "Messages marked as read" n), w1)
       /\ mark_messages_as_read 1 "bob" 80 w1
          = (inl (MarkReadResponse.mk "Messages marked as read" 0), w1)
       /\ (forall m, In m (messages w_sent) -> MessageDB.status m = read_status ->
                     In m (messages w1)).
Proof.
  split; [ reflexivity | ].
  apply (mark_messages_as_read_idempotent 1 "bob" 70 80 w_sent
           (ChatRoomDB.mk 1 100 "alice" "bob" true (Some 20) 10 20));
    reflexivity.
Defined.

(** ** C5: a sender who is not a participant *)

(** C5, as amended.  When the room exists and the sender is not one of its
    two participants, [send_message] fails and leaves the world as it was:
    with the not-a-participant error when the room is active, and with the
    not-active error when it is not, since that check comes first. *)
Theorem send_message_non_participant message now w chat_room :
  room_with_id (MessageCreate.chat_room_id message) w = Some chat_room ->
  str_in (MessageCreate.sender_id message)
    [ChatRoomDB.user1_id chat_room; ChatRoomDB.user2_id chat_room] = false ->
  send_message message now w
  = (inr (if ChatRoomDB.is_active chat_room then Forbidden_sender
          else InvalidState (MessageCreate.chat_room_id message)),
     w).
Proof.
  intros Hroom Hsender. pose proof (send_message_cases message now w) as H.
  rewrite Hroom, Hsender in H.
  destruct (ChatRoomDB.is_active chat_room); exact H.
Qed.

Lemma send_message_non_participant_witness :
  room_with_id 1 w_room = Some (ChatRoomDB.mk 1 100 "alice" "bob" true None 10 10)
  /\ send_message (MessageCreate.mk 1 "mallory" "hi") 60 w_room
     = (inr Forbidden_sender, w_room).
Proof.
  split; [ reflexivity | ].
  apply (send_message_non_participant (MessageCreate.mk 1 "mallory" "hi") 60 w_room
           (ChatRoomDB.mk 1 100 "alice" "bob" true None 10 10));
    reflexivity.
Defined.

(** C5 as stated fails on a deactivated room: the sender is not a
    participant, yet the error is the not-active one. *)
Lemma send_message_inactive_room_not_forbidden :
  ~ (forall message now w chat_room,
       room_with_id (MessageCreate.chat_room_id message) w = Some chat_room ->
       str_in (MessageCreate.sender_id message)
         [ChatRoomDB.user1_id chat_room; ChatRoomDB.user2_id chat_room] = false ->
       send_message message now w = (inr Forbidden_sender, w)).
Proof.
  intros H.
  specialize (H (MessageCreate.mk 1 "mallory" "hi") 60 w_inactive
                (ChatRoomDB.mk 1 100 "alice" "bob" false None 10 50)
                eq_refl eq_refl).
  vm_compute in H. discriminate H.
Qed.

(** ** C6: one room per trade offer *)

(** C6.  When a room for the trade offer exists, [create_chat_room] raises
    the already-exists error and the world, hence the existing room, is
    unchanged. *)
Theorem create_chat_room_conflict chat_room now w r :
  In r (chat_rooms w) ->
  ChatRoomDB.trade_offer_id r = ChatRoomCreate.trade_offer_id chat_room ->
  create_chat_room chat_room now w
  = (inr (Conflict (ChatRoomCreate.trade_offer_id chat_room)), w).
Proof.
  intros Hin Htrade. unfold create_chat_room. run_io.
  destruct (first _) as [existing_room | ] eqn:Hfirst; [ reflexivity | ].
  pose proof (first_filter_None _ _ Hfirst r Hin) as Hno. simpl in Hno.
  rewrite Htrade, Z.eqb_refl in Hno. discriminate Hno.
Qed.

Lemma create_chat_room_conflict_witness :
  In (ChatRoomDB.mk 1 100 "alice" "bob" true None 10 10) (chat_rooms w_room)
  /\ create_chat_room (ChatRoomCreate.mk 100 "carol" "dave") 60 w_room
     = (inr (HTTPException 400 "Chat room already exists for trade offer 100"),
        w_room).
Proof.
  split; [ left; reflexivity | ].
  apply (create_chat_room_conflict (ChatRoomCreate.mk 100 "carol" "dave") 60 w_room
           (ChatRoomDB.mk 1 100 "alice" "bob" true None 10 10));
    [ left; reflexivity | reflexivity ].
Defined.

(** ** C10: a status update without a status *)

(** C10.  For an existing message, [update_message] with no status returns
    the stored row as it is and leaves the world unchanged. *)
Theorem update_message_without_status message_id now w m :
  message_with_id message_id w = Some m ->
  update_message message_id (MessageUpdate.mk None) now w = (inl m, w).
Proof.
  intros Hm. unfold message_with_id in Hm. unfold update_message. run_io.
  rewrite Hm. reflexivity.
Qed.

Lemma update_message_without_status_witness :
  message_with_id 1 w_read = Some m_read
  /\ update_message 1 (MessageUpdate.mk None) 90 w_read = (inl m_read, w_read).
Proof.
  split; [ reflexivity | ].
  apply (update_message_without_status 1 90 w_read m_read). reflexivity.
Defined.

(** ** C8: the participants of a room *)

Lemma map_room_key_update (f : ChatRoomDB.t -> ChatRoomDB.t) pk l :
  (forall r, room_key (f r) = room_key r) ->
  map room_key (map (fun r => if ChatRoomDB.id r =? pk then f r else r) l)
  = map room_key l.
Proof.
  intros Hf. apply map_map_same. intros r.
  destruct (ChatRoomDB.id r =? pk); auto.
Qed.

(** Serving a request never changes the key or the participants of a stored
    room, and never removes a room; it may add one at the end. *)
Lemma handle_room_keys req now w :
  exists tail,
    map room_key (chat_rooms (handle req now w))
    = map room_key (chat_rooms w) ++ tail.
Proof.
  destruct req; simpl.
  - unfold create_chat_room. run_io.
    destruct (first _); simpl;
      [ | destruct (fits_integer _ && fits_integer _) ]; simpl.
    + exists []. now rewrite app_nil_r.
    + eexists. rewrite map_app. reflexivity.
    + exists []. now rewrite app_nil_r.
  - exists []. now rewrite app_nil_r.
  - unfold get_chat_room. run_io. exists []. rewrite app_nil_r.
    destruct (first _); reflexivity.
  - unfold deactivate_chat_room. run_io. exists []. rewrite app_nil_r.
    destruct (first _) as [r | ]; simpl; [ | reflexivity ].
    destruct (ChatRoomDB.is_active r); simpl; [ | reflexivity ].
    now apply map_room_key_update.
  - exists []. rewrite app_nil_r.
    pose proof (send_message_cases message now w) as H.
    destruct (room_with_id _ w) as [chat_room | ].
    + destruct (negb (ChatRoomDB.is_active chat_room)); [ now rewrite H | ].
      destruct (negb (str_in _ _)); [ now rewrite H | ].
      destruct H as (url & data & ->). simpl.
      now apply map_room_key_update.
    + now rewrite H.
  - unfold get_message. run_io. exists []. rewrite app_nil_r.
    destruct (first _); reflexivity.
  - unfold update_message. run_io. exists []. rewrite app_nil_r.
    destruct (first _) as [m | ]; simpl; [ | reflexivity ].
    destruct (MessageUpdate.status message_update); simpl; [ | reflexivity ].
    destruct (negb _ || _); reflexivity.
  - unfold mark_messages_as_read. run_io. exists []. rewrite app_nil_r.
    destruct (first _) as [r | ]; simpl; [ | reflexivity ].
    destruct (str_in _ _); reflexivity.
  - exists []. rewrite app_nil_r. unfold get_statistics.
    destruct user_id as [u | ]; [ destruct (truthy_str (Some u)) | ];
      unfold user_statistics, global_statistics; reflexivity.
Qed.

Lemma steps_by_room_keys allowed w w' :
  steps_by allowed w w' ->
  exists tail, map room_key (chat_rooms w') = map room_key (chat_rooms w) ++ tail.
Proof.
  induction 1 as [ | w' req now _ [tail IH] _].
  - exists []. now rewrite app_nil_r.
  - destruct (handle_room_keys req now w') as [tail' ->].
    rewrite IH, <- app_assoc. eauto.
Qed.

(** C8, as amended.  [create_chat_room] stores the two participant ids it
    is given, without comparing them; and in every later state the room
    with that id is still there with the same two participants.  So the
    participants of a room are distinct exactly when the request that
    created it had distinct ids. *)
Theorem create_chat_room_participants_fixed chat_room now w r w' w'' :
  reachable w ->
  create_chat_room chat_room now w = (inl r, w') ->
  steps w' w'' ->
  ChatRoomDB.user1_id r = ChatRoomCreate.user1_id chat_room
  /\ ChatRoomDB.user2_id r = ChatRoomCreate.user2_id chat_room
  /\ (exists r'', In r'' (chat_rooms w'') /\ ChatRoomDB.id r'' = ChatRoomDB.id r)
  /\ (forall r'', In r'' (chat_rooms w'') -> ChatRoomDB.id r'' = ChatRoomDB.id r ->
        ChatRoomDB.user1_id r'' = ChatRoomCreate.user1_id chat_room
        /\ ChatRoomDB.user2_id r'' = ChatRoomCreate.user2_id chat_room).
Proof.
  intros Hreach Hcreate Hsteps.
  assert (Hwf' : wf w').
  { replace w' with (snd (create_chat_room chat_room now w)) by now rewrite Hcreate.
    apply create_chat_room_wf. eapply reachable_by_wf; eauto. }
  assert (Hwf'' : wf w'') by (eapply steps_by_wf; eauto).
  assert (Hr : In r (chat_rooms w')
               /\ ChatRoomDB.user1_id r = ChatRoomCreate.user1_id chat_room
               /\ ChatRoomDB.user2_id r = ChatRoomCreate.user2_id chat_room).
  { revert Hcreate. unfold create_chat_room. run_io.
    destruct (first _); simpl; [ discriminate | ].
    destruct (fits_integer _ && fits_integer _); [ | discriminate ].
    intros H. injection H as <- <-. simpl.
    split; [ apply in_or_app; right; now left | split; reflexivity ]. }
  destruct Hr as (Hin & Hu1 & Hu2).
  destruct (steps_by_room_keys _ _ _ Hsteps) as [tail Hkeys].
  assert (Hkey : In (room_key r) (map room_key (chat_rooms w''))).
  { rewrite Hkeys. apply in_or_app. left. now apply in_map. }
  apply in_map_iff in Hkey as (r0 & Hkey0 & Hin0).
  unfold room_key in Hkey0. injection Hkey0 as Hid0 _ Hu10 Hu20.
  split; [ exact Hu1 | ]. split; [ exact Hu2 | ].
  split; [ exists r0; auto | ].
  intros r'' Hin'' Hid''.
  assert (r'' = r0) as ->.
  { eapply NoDup_map_eq;
      [ apply (wf_room_ids w'' Hwf'') | exact Hin'' | exact Hin0 | congruence ]. }
  split; congruence.
Qed.

Lemma create_chat_room_participants_fixed_witness :
  let r := ChatRoomDB.mk 2 200 "carol" "dave" true None 60 60 in
  let w' := snd (create_chat_room (ChatRoomCreate.mk 200 "carol" "dave") 60 w_sent) in
  reachable w_sent
  /\ create_chat_room (ChatRoomCreate.mk 200 "carol" "dave") 60 w_sent = (inl r, w')
  /\ forall r'', In r'' (chat_rooms (handle (DeactivateChatRoom 2) 70 w')) ->
       ChatRoomDB.id r'' = 2 ->
       ChatRoomDB.user1_id r'' = "carol" /\ ChatRoomDB.user2_id r'' = "dave".
Proof.
  cbv zeta. split; [ exact w_sent_reachable | ]. split; [ reflexivity | ].
  apply (create_chat_room_participants_fixed
           (ChatRoomCreate.mk 200 "carol" "dave") 60 w_sent
           (ChatRoomDB.mk 2 200 "carol" "dave" true None 60 60)
           (snd (create_chat_room (ChatRoomCreate.mk 200 "carol" "dave") 60 w_sent))
           (handle (DeactivateChatRoom 2) 70
              (snd (create_chat_room (ChatRoomCreate.mk 200 "carol" "dave") 60 w_sent)))).
  - exact w_sent_reachable.
  - reflexivity.
  - apply steps_step; [ apply steps_refl | exact I ].
Defined.

(** C8 as stated fails: a request naming the same user twice is accepted
    and yields a room whose two participants are equal. *)
Lemma create_chat_room_equal_participants :
  ~ (forall chat_room now w r w',
       reachable w ->
       create_chat_room chat_room now w = (inl r, w') ->
       ChatRoomDB.user1_id r <> ChatRoomDB.user2_id r).
Proof.
  intros H.
  apply (H (ChatRoomCreate.mk 200 "carol" "carol") 60 w_room
           (ChatRoomDB.mk 2 200 "carol" "carol" true None 60 60)
           (snd (create_chat_room (ChatRoomCreate.mk 200 "carol" "carol") 60 w_room))
           w_room_reachable);
    reflexivity.
Qed.

(** ** C7: listing the rooms of a user *)

Lemma desc_last_message_at_trans a b c :
  desc_last_message_at a b = true -> desc_last_message_at b c = true ->
  desc_last_message_at a c = true.
Proof.
  unfold desc_last_message_at.
  destruct (ChatRoomDB.last_message_at a), (ChatRoomDB.last_message_at b),
    (ChatRoomDB.last_message_at c); intros H1 H2; try reflexivity;
    try discriminate.
  apply Z.leb_le in H1, H2. apply Z.leb_le. lia.
Qed.

Lemma filter_filter_andb {A} (p q : A -> bool) l :
  filter q (filter p l) = filter (fun a => p a && q a) l.
Proof.
  induction l as [ | x l IH]; simpl; [ reflexivity | ].
  destruct (p x); simpl; [ destruct (q x); now rewrite IH | exact IH ].
Qed.

Lemma StronglySorted_after {A} (R : A -> A -> Prop) before a after :
  StronglySorted R (before ++ a :: after) -> forall b, In b after -> R a b.
Proof.
  induction before as [ | x before IH]; simpl; intros Hs b Hb.
  - apply StronglySorted_inv in Hs as [_ Hall].
    rewrite Forall_forall in Hall. auto.
  - apply StronglySorted_inv in Hs as [Hs _]. auto.
Qed.

Lemma list_chat_rooms_selection user_id (active_only : bool) w :
  (if active_only
   then filter ChatRoomDB.is_active (filter (is_participant user_id) (chat_rooms w))
   else filter (is_participant user_id) (chat_rooms w))
  = filter (in_listing user_id active_only) (chat_rooms w).
Proof.
  unfold in_listing. destruct active_only; simpl.
  - apply filter_filter_andb.
  - apply filter_ext. intros r. now rewrite andb_true_r.
Qed.

Lemma in_listing_spec user_id active_only r :
  in_listing user_id active_only r = true
  <-> (ChatRoomDB.user1_id r = user_id \/ ChatRoomDB.user2_id r = user_id)
      /\ (active_only = true -> ChatRoomDB.is_active r = true).
Proof.
  unfold in_listing, is_participant.
  rewrite andb_true_iff, !orb_true_iff, !String.eqb_eq, negb_true_iff.
  split; intros [Hp Ha]; split; auto.
  - intros ->. destruct Ha as [Ha | Ha]; [ discriminate | exact Ha ].
  - destruct active_only; auto.
Qed.

(** C7.  [list_chat_rooms] returns a page, [skip] rows in and at most
    [limit] rows long, of a list that holds exactly the rooms of the user
    (the active ones only when [active_only]), each once, ordered by
    [last_message_at] descending with the rooms without a message last.
    The world is unchanged. *)
Theorem list_chat_rooms_ordered_page user_id active_only skip limit w :
  exists ordered,
    Permutation (filter (in_listing user_id active_only) (chat_rooms w)) ordered
    /\ (forall r, In r ordered <->
          In r (chat_rooms w)
          /\ (ChatRoomDB.user1_id r = user_id \/ ChatRoomDB.user2_id r = user_id)
          /\ (active_only = true -> ChatRoomDB.is_active r = true))
    /\ StronglySorted (fun a b => desc_last_message_at a b = true) ordered
    /\ (forall before a after b, ordered = before ++ a :: after -> In b after ->
          match ChatRoomDB.last_message_at a, ChatRoomDB.last_message_at b with
          | Some x, Some y => y <= x
          | Some _, None => True
          | None, Some _ => False
          | None, None => True
          end)
    /\ exists page,
         list_chat_rooms user_id active_only skip limit w = (inl page, w)
         /\ map room_of page = firstn limit (skipn skip ordered).
Proof.
  exists (RoomSort.sort (filter (in_listing user_id active_only) (chat_rooms w))).
  assert (Hsorted : StronglySorted (fun a b => desc_last_message_at a b = true)
            (RoomSort.sort (filter (in_listing user_id active_only) (chat_rooms w)))).
  { apply RoomSort.StronglySorted_sort. intros a b c.
    apply desc_last_message_at_trans. }
  split; [ apply RoomSort.Permuted_sort | ].
  split.
  { intros r. rewrite <- in_listing_spec. rewrite <- filter_In. split; intros H.
    - eapply Permutation_in; [ apply Permutation_sym, RoomSort.Permuted_sort | exact H ].
    - eapply Permutation_in; [ apply RoomSort.Permuted_sort | exact H ]. }
  split; [ exact Hsorted | ].
  split.
  { intros before a after b Heq Hb. rewrite Heq in Hsorted.
    pose proof (StronglySorted_after _ _ _ _ Hsorted b Hb) as Hab.
    unfold desc_last_message_at in Hab.
    destruct (ChatRoomDB.last_message_at a), (ChatRoomDB.last_message_at b);
      try exact I; [ now apply Z.leb_le | discriminate ]. }
  eexists. split.
  - unfold list_chat_rooms. reflexivity.
  - unfold list_chat_rooms_query. rewrite list_chat_rooms_selection.
    rewrite map_map. erewrite map_ext; [ apply map_id | ].
    intros [? ? ? ? ? ? ? ?]. reflexivity.
Qed.

(** ** C9: statistics *)

Lemma or_0_scalar_count {A} (rows : list A) :
  or_0 (scalar_count rows) = Z.of_nat (List.length rows).
Proof.
  unfold or_0, scalar_count.
  destruct (Z.of_nat (List.length rows) =? 0) eqn:H; [ | reflexivity ].
  apply Z.eqb_eq in H. now rewrite H.
Qed.

Lemma in_room_ids u x rooms :
  in_ x (map ChatRoomDB.id (filter (is_participant u) rooms))
  = existsb (fun r => is_participant u r && (ChatRoomDB.id r =? x)) rooms.
Proof.
  unfold in_. induction rooms as [ | r rooms IH]; simpl; [ reflexivity | ].
  destruct (is_participant u r); simpl; [ | exact IH ].
  now rewrite IH, (Z.eqb_sym x).
Qed.

Lemma filter_nil_andb {A} (p q : A -> bool) l :
  filter p l = [] -> filter (fun a => p a && q a) l = [].
Proof.
  intros H. rewrite <- filter_filter_andb, H. reflexivity.
Qed.

(** With no room at all there is no message either. *)
Lemma no_rooms_no_messages w : wf w -> chat_rooms w = [] -> messages w = [].
Proof.
  intros Hwf Hrooms. destruct (messages w) as [ | m l] eqn:Hm; [ reflexivity | ].
  destruct (wf_foreign_key w Hwf m) as (r & Hr & _).
  - rewrite Hm. now left.
  - rewrite Hrooms in Hr. destruct Hr.
Qed.

(** An empty user id is not a scope: the statistics are the global ones. *)
Lemma get_statistics_empty_user_id w :
  get_statistics (Some "") w = get_statistics None w.
Proof. reflexivity. Qed.

(** The user branch counts as unread exactly what the specification calls
    unread for that user. *)
Lemma user_statistics_unread u w :
  or_0 (snd (user_statistics u w))
  = Z.of_nat (List.length (filter (spec_unread_of_user u w) (messages w))).
Proof.
  unfold user_statistics. cbn [snd].
  assert (Hext : filter (fun m => in_ (MessageDB.chat_room_id m)
                            (map ChatRoomDB.id
                               (filter (is_participant u) (chat_rooms w)))
                          && is_unread_for u m) (messages w)
                 = filter (spec_unread_of_user u w) (messages w)).
  { apply filter_ext. intros m. unfold spec_unread_of_user, is_unread_for, read_status.
    rewrite in_room_ids.
    destruct (existsb _ _), (negb (String.eqb (MessageDB.sender_id m) u)),
      (negb (String.eqb (MessageDB.status m) _)); reflexivity. }
  destruct (map ChatRoomDB.id (filter (is_participant u) (chat_rooms w)))
    as [ | i ids] eqn:Hids.
  - rewrite <- Hext. simpl. rewrite filter_all_false; [ reflexivity | ].
    intros m _. reflexivity.
  - rewrite Hext. apply or_0_scalar_count.
Qed.

(** C9, as amended.  [get_statistics] always returns, with four counters
    that are non-negative integers, and leaves the world unchanged.  The
    call is scoped to a user when a non-empty user id is given; a missing
    and an empty user id both give the global statistics.  In a reachable
    state, when the scope (the rooms of the user the call is scoped to, else
    all rooms) is empty, the four counters are 0.  When the call is scoped
    to a user, the unread counter is the number of messages that lie in one
    of that user's rooms, have a status other than [read] and were not sent
    by that user.  When it is not, the counters count all rooms, all active
    rooms, all messages and all messages with a status other than [read]. *)
Theorem get_statistics_counters user_id w :
  exists s,
    get_statistics user_id w = (inl s, w)
    /\ (0 <= ChatStatistics.total_rooms s /\ 0 <= ChatStatistics.active_rooms s
        /\ 0 <= ChatStatistics.total_messages s
        /\ 0 <= ChatStatistics.total_unread_messages s)
    /\ (reachable w -> scope user_id w = [] ->
        ChatStatistics.total_rooms s = 0 /\ ChatStatistics.active_rooms s = 0
        /\ ChatStatistics.total_messages s = 0
        /\ ChatStatistics.total_unread_messages s = 0)
    /\ (forall u, scoped_to user_id = Some u ->
        ChatStatistics.total_unread_messages s
        = Z.of_nat (List.length (filter (spec_unread_of_user u w) (messages w))))
    /\ (scoped_to user_id = None ->
        ChatStatistics.total_rooms s = Z.of_nat (List.length (chat_rooms w))
        /\ ChatStatistics.active_rooms s
           = Z.of_nat (List.length (filter ChatRoomDB.is_active (chat_rooms w)))
        /\ ChatStatistics.total_messages s = Z.of_nat (List.length (messages w))
        /\ ChatStatistics.total_unread_messages s
           = Z.of_nat
               (List.length
                  (filter (fun m => negb (String.eqb (MessageDB.status m) read_status))
                     (messages w)))).
Proof.
  assert (Hglobal :
    exists s,
      (let '(a, b, c, d) := global_statistics w in
       (@inl ChatStatistics.t exn
          (ChatStatistics.mk (or_0 a) (or_0 b) (or_0 c) (or_0 d)), w))
      = (inl s, w)
      /\ (0 <= ChatStatistics.total_rooms s /\ 0 <= ChatStatistics.active_rooms s
          /\ 0 <= ChatStatistics.total_messages s
          /\ 0 <= ChatStatistics.total_unread_messages s)
      /\ (reachable w -> chat_rooms w = [] ->
          ChatStatistics.total_rooms s = 0 /\ ChatStatistics.active_rooms s = 0
          /\ ChatStatistics.total_messages s = 0
          /\ ChatStatistics.total_unread_messages s = 0)
      /\ (ChatStatistics.total_rooms s = Z.of_nat (List.length (chat_rooms w))
          /\ ChatStatistics.active_rooms s
             = Z.of_nat (List.length (filter ChatRoomDB.is_active (chat_rooms w)))
          /\ ChatStatistics.total_messages s = Z.of_nat (List.length (messages w))
          /\ ChatStatistics.total_unread_messages s
             = Z.of_nat
                 (List.length
                    (filter (fun m => negb (String.eqb (MessageDB.status m)
                                              read_status))
                       (messages w))))).
  { unfold global_statistics. eexists. split; [ reflexivity | ].
    cbn [ChatStatistics.total_rooms ChatStatistics.active_rooms
         ChatStatistics.total_messages ChatStatistics.total_unread_messages].
    rewrite !or_0_scalar_count. split; [ repeat split; lia | ].
    split; [ | repeat split ].
    intros Hreach Hrooms. pose proof (reachable_by_wf _ _ Hreach) as Hwf.
    rewrite (no_rooms_no_messages w Hwf Hrooms), Hrooms.
    repeat split. }
  unfold get_statistics, scope, scoped_to.
  destruct user_id as [u | ].
  - destruct (truthy_str (Some u)) eqn:Htruthy.
    + pose proof (user_statistics_unread u w) as Hunread.
      unfold user_statistics in *. cbn [snd] in Hunread.
      eexists. split; [ reflexivity | ].
      cbn [ChatStatistics.total_rooms ChatStatistics.active_rooms
           ChatStatistics.total_messages ChatStatistics.total_unread_messages].
      rewrite !or_0_scalar_count. split; [ | split; [ | split ] ].
      * repeat split; try lia; try (rewrite Hunread; lia).
        destruct (map _ _); [ simpl; lia | rewrite or_0_scalar_count; lia ].
      * intros _ Hscope. rewrite Hscope.
        rewrite (filter_nil_andb _ ChatRoomDB.is_active _ Hscope).
        repeat split.
      * intros u' Hu'. injection Hu' as <-. exact Hunread.
      * discriminate.
    + destruct Hglobal as (s & Heq & Hpos & Hzero & Hall).
      exists s. split; [ exact Heq | ]. split; [ exact Hpos | ].
      split; [ exact Hzero | ]. split; [ discriminate | intros _; exact Hall ].
  - destruct Hglobal as (s & Heq & Hpos & Hzero & Hall).
    exists s. split; [ exact Heq | ]. split; [ exact Hpos | ].
    split; [ exact Hzero | ]. split; [ discriminate | intros _; exact Hall ].
Qed.

(** C9 as stated fails for the empty user id: the room of [w_empty_user_id]
    is a room of that user and its only message was sent by that user, so
    the unread count scoped to that user is 0; the handler takes the global
    branch and reports 1. *)
Lemma get_statistics_empty_user_id_is_global :
  ~ (forall u w, reachable w ->
       exists s,
         get_statistics (Some u) w = (inl s, w)
         /\ ChatStatistics.total_unread_messages s
            = Z.of_nat (List.length (filter (spec_unread_of_user u w) (messages w)))).
Proof.
  intros H.
  assert (Hreach : reachable w_empty_user_id).
  { exists (always (Response 201)). unfold w_empty_user_id.
    apply steps_step; [ | exact I ]. apply steps_step; [ | exact I ].
    apply steps_refl. }
  destruct (H "" w_empty_user_id Hreach) as (s & Hs & Hunread).
  injection Hs as <-. vm_compute in Hunread. discriminate Hunread.
Qed.

(** Statistics for a user who takes part in no room of a reachable state. *)
Lemma get_statistics_counters_witness :
  reachable w_sent
  /\ scope (Some "carol") w_sent = []
  /\ exists s,
       get_statistics (Some "carol") w_sent = (inl s, w_sent)
       /\ ChatStatistics.total_rooms s = 0 /\ ChatStatistics.active_rooms s = 0
       /\ ChatStatistics.total_messages s = 0
       /\ ChatStatistics.total_unread_messages s = 0.
Proof.
  split; [ exact w_sent_reachable | ]. split; [ reflexivity | ].
  destruct (get_statistics_counters (Some "carol") w_sent)
    as (s & Heq & _ & Hzero & _).
  exists s. split; [ exact Heq | ].
  apply Hzero; [ exact w_sent_reachable | reflexivity ].
Defined.

(** ** Scenarios *)

(** A room for trade offer 100, then "hi" from alice: the room's
    [last_message_at] is set, the notification goes to bob, bob has one
    unread message and alice none; bob marking the room read updates one
    row, after which bob has no unread message. *)
Example scenario_send_then_mark_read :
  map ChatRoomDB.last_message_at (chat_rooms w_sent) = [Some 20]
  /\ map (fun p => List.hd_error (snd p)) (posted w_sent) = [Some ("user_id", "bob")]
  /\ map ChatRoomWithLastMessage.unread_count
       (match fst (list_chat_rooms "bob" true 0 50 w_sent) with inl l => l | inr _ => [] end)
     = [1]
  /\ map ChatRoomWithLastMessage.unread_count
       (match fst (list_chat_rooms "alice" true 0 50 w_sent) with inl l => l | inr _ => [] end)
     = [0]
  /\ fst (mark_messages_as_read 1 "bob" 70 w_sent)
     = inl (MarkReadResponse.mk "Messages marked as read" 1)
  /\ map ChatRoomWithLastMessage.unread_count
       (match fst (list_chat_rooms "bob" true 0 50
                     (snd (mark_messages_as_read 1 "bob" 70 w_sent)))
        with inl l => l | inr _ => [] end)
     = [0].
Proof. repeat split. Qed.

(** Statistics on the empty store. *)
Example scenario_statistics_empty_store :
  fst (get_statistics None (initial (always (Response 201))))
  = inl (ChatStatistics.mk 0 0 0 0).
Proof. reflexivity. Qed.

(** The three rooms of alice are listed most recent first and the room
    without a message last; the second page of size one holds the middle
    room. *)
Example scenario_listing_order :
  map ChatRoomDB.id (list_chat_rooms_query "alice" true 0 50 w_three_rooms) = [3; 1; 2]
  /\ map ChatRoomDB.id (list_chat_rooms_query "alice" true 1 1 w_three_rooms) = [1]
  /\ map ChatRoomDB.id (list_chat_rooms_query "carol" true 0 50 w_three_rooms) = [2].
Proof. repeat split. Qed.

(** * Further properties *)

(** ** What each writing handler does, case by case *)

Lemma create_chat_room_cases chat_room now w :
  match room_with_trade_offer (ChatRoomCreate.trade_offer_id chat_room) w with
  | Some _ =>
      create_chat_room chat_room now w
      = (inr (Conflict (ChatRoomCreate.trade_offer_id chat_room)), w)
  | None =>
      if fits_integer (chat_rooms_id_seq w)
         && fits_integer (ChatRoomCreate.trade_offer_id chat_room)
      then
        create_chat_room chat_room now w
        = (inl (created_row chat_room now w), created_world chat_room now w)
      else create_chat_room chat_room now w = (inr OtherException, w)
  end.
Proof.
  unfold create_chat_room, room_with_trade_offer. run_io.
  destruct (first _); simpl; [ reflexivity | ].
  destruct (fits_integer _ && fits_integer _); reflexivity.
Qed.

Lemma deactivate_chat_room_cases chat_room_id now w :
  match room_with_id chat_room_id w with
  | None =>
      deactivate_chat_room chat_room_id now w
      = (inr (NotFound_chat_room chat_room_id), w)
  | Some chat_room =>
      if ChatRoomDB.is_active chat_room then
        deactivate_chat_room chat_room_id now w
        = (inl (set_is_active chat_room false now),
           deactivated_world (ChatRoomDB.id chat_room) now w)
      else deactivate_chat_room chat_room_id now w = (inl chat_room, w)
  end.
Proof.
  unfold deactivate_chat_room, room_with_id. run_io.
  destruct (first _) as [chat_room | ]; [ | reflexivity ].
  destruct (ChatRoomDB.is_active chat_room); reflexivity.
Qed.

Lemma update_message_cases message_id message_update now w :
  match message_with_id message_id w with
  | None =>
      update_message message_id message_update now w
      = (inr (HTTPException 404 ("Message " ++ str message_id ++ " not found")%string),
         w)
  | Some message =>
      match MessageUpdate.status message_update with
      | None => update_message message_id message_update now w = (inl message, w)
      | Some new_status =>
          let stamp := stamps_read_at new_status message in
          if negb (String.eqb (MessageDB.status message)
                     (MessageStatus.value new_status)) || stamp
          then
            update_message message_id message_update now w
            = (inl (assign_status new_status stamp now message),
               snd (update_messages
                      (fun m => MessageDB.id m =? MessageDB.id message)
                      (assign_status new_status stamp now) w))
          else update_message message_id message_update now w = (inl message, w)
      end
  end.
Proof.
  unfold update_message, message_with_id. run_io.
  destruct (first _) as [message | ]; [ | reflexivity ].
  destruct (MessageUpdate.status message_update) as [new_status | ];
    [ | reflexivity ].
  cbv zeta. unfold stamps_read_at.
  destruct (negb _ || _); reflexivity.
Qed.

Lemma mark_messages_as_read_cases chat_room_id user_id now w :
  match room_with_id chat_room_id w with
  | None =>
      mark_messages_as_read chat_room_id user_id now w
      = (inr (NotFound_chat_room chat_room_id), w)
  | Some chat_room =>
      if str_in user_id [ChatRoomDB.user1_id chat_room; ChatRoomDB.user2_id chat_room]
      then
        mark_messages_as_read chat_room_id user_id now w
        = (inl (MarkReadResponse.mk "Messages marked as read"
                  (Z.of_nat (List.length
                               (filter (unread_from_others chat_room_id user_id)
                                  (messages w))))),
           snd (update_messages (unread_from_others chat_room_id user_id)
                  (mark_read now) w))
      else
        mark_messages_as_read chat_room_id user_id now w
        = (inr (HTTPException 400 "User is not a participant in this chat room"), w)
  end.
Proof.
  unfold mark_messages_as_read, room_with_id. run_io.
  destruct (first _) as [chat_room | ]; [ | reflexivity ].
  destruct (str_in _ _); reflexivity.
Qed.

(** The three writing-free handlers, and the handlers that only read. *)
Lemma get_chat_room_world chat_room_id w : snd (get_chat_room chat_room_id w) = w.
Proof. unfold get_chat_room. run_io. destruct (first _); reflexivity. Qed.

Lemma get_message_world message_id w : snd (get_message message_id w) = w.
Proof. unfold get_message. run_io. destruct (first _); reflexivity. Qed.

Lemma get_statistics_world user_id w : snd (get_statistics user_id w) = w.
Proof.
  unfold get_statistics.
  destruct user_id as [u | ]; [ destruct (truthy_str (Some u)) | ];
    unfold user_statistics, global_statistics; reflexivity.
Qed.

(** Every request changes the tables in one of the ways of [db_change]. *)
Lemma handle_db_change req now w : db_change w (handle req now w).
Proof.
  destruct req; simpl.
  - pose proof (create_chat_room_cases chat_room now w) as H.
    destruct (room_with_trade_offer _ w) eqn:Hroom;
      [ | destruct (fits_integer _ && fits_integer _) ]; rewrite H; simpl.
    + constructor.
    + now constructor.
    + constructor.
  - constructor.
  - rewrite get_chat_room_world. constructor.
  - pose proof (deactivate_chat_room_cases chat_room_id now w) as H.
    destruct (room_with_id _ w) as [chat_room | ] eqn:Hroom.
    + destruct (ChatRoomDB.is_active chat_room); rewrite H; simpl.
      * apply change_deactivate. now apply first_filter_Some in Hroom.
      * constructor.
    + rewrite H. constructor.
  - pose proof (send_message_cases message now w) as H.
    destruct (room_with_id _ w) as [chat_room | ] eqn:Hroom.
    + destruct (ChatRoomDB.is_active chat_room) eqn:Hactive; simpl in H;
        [ | rewrite H; constructor ].
      destruct (str_in _ _) eqn:Hsender; simpl in H; [ | rewrite H; constructor ].
      destruct H as (url & data & ->). simpl. now apply change_send.
    + rewrite H. constructor.
  - rewrite get_message_world. constructor.
  - pose proof (update_message_cases message_id message_update now w) as H.
    destruct (message_with_id _ w) as [message | ] eqn:Hmsg;
      [ | rewrite H; constructor ].
    destruct (MessageUpdate.status message_update) as [new_status | ];
      [ | rewrite H; constructor ].
    cbv zeta in H. destruct (negb _ || _); rewrite H; simpl; [ | constructor ].
    apply change_update. now apply first_filter_Some in Hmsg.
  - pose proof (mark_messages_as_read_cases chat_room_id user_id now w) as H.
    destruct (room_with_id _ w) as [chat_room | ]; [ | rewrite H; constructor ].
    destruct (str_in _ _); rewrite H; simpl; constructor.
  - rewrite get_statistics_world. constructor.
Qed.

(** ** Consistency of the tables *)

Lemma NoDup_snoc {A} (l : list A) x : NoDup l -> ~ In x l -> NoDup (l ++ [x]).
Proof.
  intros Hnd Hx. apply NoDup_app; [ exact Hnd | repeat constructor; intros [] | ].
  intros y Hy [<- | []]. exact (Hx Hy).
Qed.

Lemma filter_map_commute {A} (p : A -> bool) (g : A -> A) l :
  (forall a, p (g a) = p a) -> filter p (map g l) = map g (filter p l).
Proof.
  intros Hp. induction l as [ | x l IH]; simpl; [ reflexivity | ].
  rewrite Hp. destruct (p x); simpl; now rewrite IH.
Qed.

Lemma last_map_Some {A} (g : A -> A) l :
  List.last (map Some (map g l)) None = option_map g (List.last (map Some l) None).
Proof.
  induction l as [ | x l IH]; [ reflexivity | ].
  destruct l as [ | y l]; [ reflexivity | ].
  exact IH.
Qed.

Lemma last_snoc_Some {A} (l : list A) x :
  List.last (map Some (l ++ [x])) None = Some x.
Proof. rewrite map_app. apply last_last. Qed.

Lemma message_key_fields m m' :
  message_key m' = message_key m ->
  MessageDB.id m' = MessageDB.id m
  /\ MessageDB.chat_room_id m' = MessageDB.chat_room_id m
  /\ MessageDB.sender_id m' = MessageDB.sender_id m
  /\ MessageDB.content m' = MessageDB.content m
  /\ MessageDB.created_at m' = MessageDB.created_at m.
Proof. unfold message_key. intros H. injection H as -> -> -> -> ->. auto. Qed.

Lemma assign_status_key new_status stamp now m :
  message_key (assign_status new_status stamp now m) = message_key m.
Proof. unfold assign_status. destruct stamp; reflexivity. Qed.

Lemma mark_read_key now m : message_key (mark_read now m) = message_key m.
Proof. reflexivity. Qed.

Lemma is_status_value s : is_status (MessageStatus.value s).
Proof. unfold is_status. destruct s; simpl; auto. Qed.

(** Rewriting the assignable columns of messages keeps the tables
    consistent. *)
Lemma messages_mapped_consistent w (g : MessageDB.t -> MessageDB.t) :
  (forall m, message_key (g m) = message_key m) ->
  (forall m, In m (messages w) -> is_status (MessageDB.status (g m))) ->
  consistent w ->
  consistent (mkWorld (chat_rooms w) (map g (messages w)) (chat_rooms_id_seq w)
                (messages_id_seq w) (notifications_service w) (posted w) (slept w)).
Proof.
  intros Hkey Hstatus [H1 H2 H3 H4]. constructor; simpl; auto.
  - intros m Hm. apply in_map_iff in Hm as (m0 & <- & Hm0). auto.
  - intros m Hm. apply in_map_iff in Hm as (m0 & <- & Hm0).
    destruct (message_key_fields _ _ (Hkey m0)) as (_ & -> & -> & _).
    auto.
  - intros r Hr. rewrite (H4 r Hr). unfold last_inserted_at, room_messages. simpl.
    rewrite filter_map_commute.
    + rewrite last_map_Some.
      destruct (List.last _ None) as [m | ]; simpl; [ | reflexivity ].
      now destruct (message_key_fields _ _ (Hkey m)) as (_ & _ & _ & _ & ->).
    + intros m. now destruct (message_key_fields _ _ (Hkey m)) as (_ & -> & _).
Qed.

Lemma update_messages_consistent w p f :
  (forall m, message_key (f m) = message_key m) ->
  (forall m, is_status (MessageDB.status (f m))) ->
  consistent w -> consistent (snd (update_messages p f w)).
Proof.
  intros Hkey Hstatus Hc. unfold update_messages. simpl.
  apply messages_mapped_consistent; auto.
  - intros m. destruct (p m); auto.
  - intros m Hm. destruct (p m); auto. now apply (statuses_valid w Hc).
Qed.

(** No message points at the key the room sequence will hand out next. *)
Lemma no_message_in_next_room w :
  wf w -> room_messages (chat_rooms_id_seq w) w = [].
Proof.
  intros Hwf. unfold room_messages. apply filter_all_false. intros m Hm.
  destruct (wf_foreign_key w Hwf m Hm) as (r & Hr & Hid).
  pose proof (wf_room_seq w Hwf r Hr). apply Z.eqb_neq. lia.
Qed.

Lemma db_change_consistent w w' :
  wf w -> consistent w -> db_change w w' -> consistent w'.
Proof.
  intros Hwf Hc Hchange.
  destruct Hchange as [ | chat_room now Hnone | chat_room now Hin
                      | message now chat_room url data Hroom Hactive Hsender
                      | message new_status now Hin | chat_room_id user_id now ].
  - exact Hc.
  - destruct Hc as [H1 H2 H3 H4]. constructor; simpl; auto.
    + rewrite map_app. simpl. apply NoDup_snoc; [ exact H1 | ].
      intros Hin. apply in_map_iff in Hin as (r & Heq & Hr).
      pose proof (first_filter_None _ _ Hnone r Hr) as Hno. simpl in Hno.
      rewrite Heq, Z.eqb_refl in Hno. discriminate.
    + intros m Hm. destruct (H3 m Hm) as (r & Hr & Hrest).
      exists r. split; [ apply in_or_app; now left | exact Hrest ].
    + intros r Hr. apply in_app_or in Hr as [Hr | [<- | []]].
      * exact (H4 r Hr).
      * simpl. unfold last_inserted_at.
        change (room_messages (chat_rooms_id_seq w) (created_world chat_room now w))
          with (room_messages (chat_rooms_id_seq w) w).
        now rewrite no_message_in_next_room.
  - destruct Hc as [H1 H2 H3 H4].
    set (f := fun r => if ChatRoomDB.id r =? ChatRoomDB.id chat_room
                       then set_is_active r false now else r).
    assert (Hf : forall r, room_key (f r) = room_key r
                           /\ ChatRoomDB.last_message_at (f r)
                              = ChatRoomDB.last_message_at r).
    { intros r. unfold f. destruct (_ =? _); split; reflexivity. }
    unfold deactivated_world. fold f. constructor; simpl; auto.
    + rewrite map_map_same; [ exact H1 | ].
      intros r. destruct (Hf r) as [Hk _]. unfold room_key in Hk. congruence.
    + intros m Hm. destruct (H3 m Hm) as (r & Hr & Hid & Hp).
      exists (f r). split; [ now apply in_map | ].
      destruct (Hf r) as [Hk _]. unfold room_key in Hk.
      injection Hk as -> _ -> ->. auto.
    + intros r Hr. apply in_map_iff in Hr as (r0 & <- & Hr0).
      destruct (Hf r0) as [Hk ->]. unfold room_key in Hk. injection Hk as -> _ _ _.
      exact (H4 r0 Hr0).
  - destruct Hc as [H1 H2 H3 H4].
    apply first_filter_Some in Hroom as [Hin Hid]. apply Z.eqb_eq in Hid.
    set (f := fun r => if ChatRoomDB.id r =? ChatRoomDB.id chat_room
                       then set_last_message_at r now now else r).
    assert (Hf : forall r, room_key (f r) = room_key r).
    { intros r. unfold f. destruct (_ =? _); reflexivity. }
    unfold after_post, sent_world. fold f. constructor; simpl; auto.
    + rewrite map_map_same; [ exact H1 | ].
      intros r. pose proof (Hf r) as Hk. unfold room_key in Hk. congruence.
    + intros m Hm. apply in_app_or in Hm as [Hm | [<- | []]]; auto.
      simpl. unfold is_status. auto.
    + intros m Hm. apply in_app_or in Hm as [Hm | [<- | []]].
      * destruct (H3 m Hm) as (r & Hr & Hrid & Hp).
        exists (f r). split; [ now apply in_map | ].
        pose proof (Hf r) as Hk. unfold room_key in Hk.
        injection Hk as -> _ -> ->. auto.
      * exists (f chat_room). split; [ now apply in_map | ].
        pose proof (Hf chat_room) as Hk. unfold room_key in Hk.
        injection Hk as -> _ -> ->. simpl. auto.
    + intros r Hr. apply in_map_iff in Hr as (r0 & <- & Hr0).
      unfold last_inserted_at, room_messages. simpl.
      rewrite filter_app. simpl.
      pose proof (Hf r0) as Hk. unfold room_key in Hk. injection Hk as Hid0 _ _ _.
      rewrite Hid0. unfold f.
      destruct (ChatRoomDB.id r0 =? ChatRoomDB.id chat_room) eqn:Heq.
      * apply Z.eqb_eq in Heq.
        replace (MessageCreate.chat_room_id message =? ChatRoomDB.id r0) with true
          by (symmetry; apply Z.eqb_eq; congruence).
        rewrite last_snoc_Some. reflexivity.
      * apply Z.eqb_neq in Heq.
        replace (MessageCreate.chat_room_id message =? ChatRoomDB.id r0) with false
          by (symmetry; apply Z.eqb_neq; congruence).
        rewrite app_nil_r. exact (H4 r0 Hr0).
  - apply update_messages_consistent; auto.
    + intros m. apply assign_status_key.
    + intros m. unfold assign_status.
      destruct (stamps_read_at new_status message); apply is_status_value.
  - apply update_messages_consistent; auto.
    intros m. unfold is_status. simpl. auto.
Qed.

Lemma initial_consistent endpoint : consistent (initial endpoint).
Proof. constructor; simpl; try (intros ? []); constructor. Qed.

Lemma steps_by_consistent allowed w w' :
  steps_by allowed w w' -> wf w -> consistent w -> consistent w'.
Proof.
  induction 1 as [ | w' req now Hsteps IH _]; intros Hwf Hc; [ exact Hc | ].
  apply (db_change_consistent w'); auto using handle_db_change.
  eapply steps_by_wf; eauto.
Qed.

Lemma reachable_consistent w : reachable w -> consistent w.
Proof.
  intros [endpoint H].
  eapply steps_by_consistent; eauto using initial_wf, initial_consistent.
Qed.

(** ** Looking up what is stored *)

Lemma first_filter_unique {A} (f : A -> Z) l a :
  NoDup (map f l) -> In a l ->
  first (filter (fun x => f x =? f a) l) = Some a.
Proof.
  induction l as [ | x l IH]; simpl; intros Hnd Hin; [ destruct Hin | ].
  inversion Hnd as [ | ? ? Hnotin Hnd']; subst.
  destruct Hin as [-> | Hin].
  - rewrite Z.eqb_refl. reflexivity.
  - destruct (f x =? f a) eqn:Heq.
    + apply Z.eqb_eq in Heq. exfalso. apply Hnotin. rewrite Heq. now apply in_map.
    + now apply IH.
Qed.

Lemma first_filter_map {A} (p : A -> bool) (g : A -> A) l :
  (forall a, p (g a) = p a) ->
  first (filter p (map g l)) = option_map g (first (filter p l)).
Proof.
  intros Hp. rewrite filter_map_commute by exact Hp.
  unfold first. destruct (filter p l); reflexivity.
Qed.

Lemma room_lookups w r :
  wf w -> consistent w -> In r (chat_rooms w) ->
  room_with_id (ChatRoomDB.id r) w = Some r
  /\ room_with_trade_offer (ChatRoomDB.trade_offer_id r) w = Some r.
Proof.
  intros Hwf Hc Hin. split.
  - apply (first_filter_unique ChatRoomDB.id); [ apply (wf_room_ids w Hwf) | exact Hin ].
  - apply (first_filter_unique ChatRoomDB.trade_offer_id);
      [ apply (trade_offers_unique w Hc) | exact Hin ].
Qed.

Lemma message_lookup w m :
  wf w -> In m (messages w) -> message_with_id (MessageDB.id m) w = Some m.
Proof.
  intros Hwf Hin.
  apply (first_filter_unique MessageDB.id); [ apply (wf_message_ids w Hwf) | exact Hin ].
Qed.

Lemma get_chat_room_found chat_room_id w r :
  room_with_id chat_room_id w = Some r -> get_chat_room chat_room_id w = (inl r, w).
Proof. unfold room_with_id, get_chat_room. run_io. now intros ->. Qed.

Lemma get_chat_room_by_trade_offer_found trade_offer_id w r :
  room_with_trade_offer trade_offer_id w = Some r ->
  get_chat_room_by_trade_offer trade_offer_id w = (inl r, w).
Proof.
  unfold room_with_trade_offer, get_chat_room_by_trade_offer. run_io. now intros ->.
Qed.

Lemma get_message_found message_id w m :
  message_with_id message_id w = Some m -> get_message message_id w = (inl m, w).
Proof. unfold message_with_id, get_message. run_io. now intros ->. Qed.

(** X1.  In every reachable state no two rooms share a trade offer or a
    key, so every stored room is what [get_chat_room] returns for its id
    and what [get_chat_room_by_trade_offer] returns for its trade offer. *)
Theorem stored_room_is_found w r :
  reachable w -> In r (chat_rooms w) ->
  NoDup (map ChatRoomDB.trade_offer_id (chat_rooms w))
  /\ get_chat_room (ChatRoomDB.id r) w = (inl r, w)
  /\ get_chat_room_by_trade_offer (ChatRoomDB.trade_offer_id r) w = (inl r, w).
Proof.
  intros Hreach Hin.
  pose proof (reachable_by_wf _ _ Hreach) as Hwf.
  pose proof (reachable_consistent _ Hreach) as Hc.
  destruct (room_lookups w r Hwf Hc Hin) as [Hid Htrade].
  split; [ apply (trade_offers_unique w Hc) | ].
  split; [ now apply get_chat_room_found
         | now apply get_chat_room_by_trade_offer_found ].
Qed.

Lemma stored_room_is_found_witness :
  let r := ChatRoomDB.mk 2 101 "alice" "carol" true None 20 20 in
  reachable w_three_rooms
  /\ In r (chat_rooms w_three_rooms)
  /\ get_chat_room 2 w_three_rooms = (inl r, w_three_rooms)
  /\ get_chat_room_by_trade_offer 101 w_three_rooms = (inl r, w_three_rooms).
Proof.
  cbv zeta.
  assert (Hreach : reachable w_three_rooms).
  { exists (always (Response 201)). unfold w_three_rooms.
    repeat (apply steps_step; [ | exact I ]). apply steps_refl. }
  assert (Hin : In (ChatRoomDB.mk 2 101 "alice" "carol" true None 20 20)
                  (chat_rooms w_three_rooms)) by (right; left; reflexivity).
  split; [ exact Hreach | ]. split; [ exact Hin | ].
  exact (proj2 (stored_room_is_found w_three_rooms _ Hreach Hin)).
Defined.

(** X2.  In every reachable state message keys are unique, so every stored
    message is what [get_message] returns for its id. *)
Theorem stored_message_is_found w m :
  reachable w -> In m (messages w) ->
  get_message (MessageDB.id m) w = (inl m, w).
Proof.
  intros Hreach Hin. apply get_message_found, message_lookup; auto.
  eapply reachable_by_wf; eauto.
Qed.

Lemma stored_message_is_found_witness :
  reachable w_read /\ In m_read (messages w_read)
  /\ get_message 1 w_read = (inl m_read, w_read).
Proof.
  assert (Hin : In m_read (messages w_read)) by (left; reflexivity).
  split; [ exact w_read_reachable | ]. split; [ exact Hin | ].
  exact (stored_message_is_found w_read m_read w_read_reachable Hin).
Defined.

Lemma fits_int32_integer z : fits_int32 z -> fits_integer z = true.
Proof.
  unfold fits_int32, fits_integer. intros [Hlo Hhi].
  apply andb_true_iff. split; apply Z.leb_le; lia.
Qed.

(** X3.  When no room exists for the trade offer and the data fit their
    columns (the trade offer id and the next key a 32-bit integer, the
    participant ids at most 100 characters), [create_chat_room] succeeds:
    the new room carries the next key and the supplied trade offer and
    participants, is active and has no last-message time; it is appended to
    the table, the messages are untouched, and in a reachable state both
    lookups return it right away. *)
Theorem create_chat_room_creates chat_room now w :
  reachable w ->
  room_with_trade_offer (ChatRoomCreate.trade_offer_id chat_room) w = None ->
  fits_int32 (ChatRoomCreate.trade_offer_id chat_room) ->
  fits_int32 (chat_rooms_id_seq w) ->
  fits_varchar 100 (ChatRoomCreate.user1_id chat_room) ->
  fits_varchar 100 (ChatRoomCreate.user2_id chat_room) ->
  exists r w',
    create_chat_room chat_room now w = (inl r, w')
    /\ r = ChatRoomDB.mk (chat_rooms_id_seq w)
             (ChatRoomCreate.trade_offer_id chat_room)
             (ChatRoomCreate.user1_id chat_room) (ChatRoomCreate.user2_id chat_room)
             true None now now
    /\ chat_rooms w' = chat_rooms w ++ [r]
    /\ messages w' = messages w
    /\ get_chat_room (ChatRoomDB.id r) w' = (inl r, w')
    /\ get_chat_room_by_trade_offer (ChatRoomCreate.trade_offer_id chat_room) w'
       = (inl r, w').
Proof.
  intros Hreach Hnone Htrade Hkey _ _.
  pose proof (create_chat_room_cases chat_room now w) as H.
  rewrite Hnone, (fits_int32_integer _ Htrade), (fits_int32_integer _ Hkey) in H.
  simpl in H.
  exists (created_row chat_room now w), (created_world chat_room now w).
  assert (Hwf' : wf (created_world chat_room now w)).
  { replace (created_world chat_room now w)
      with (snd (create_chat_room chat_room now w)) by now rewrite H.
    apply create_chat_room_wf. eapply reachable_by_wf; eauto. }
  assert (Hc' : consistent (created_world chat_room now w)).
  { apply (db_change_consistent w).
    - eapply reachable_by_wf; eauto.
    - now apply reachable_consistent.
    - now constructor. }
  assert (Hin : In (created_row chat_room now w)
                  (chat_rooms (created_world chat_room now w))).
  { simpl. apply in_or_app. right. now left. }
  destruct (room_lookups _ _ Hwf' Hc' Hin) as [Hid Htr].
  repeat split; auto.
  - now apply get_chat_room_found.
  - now apply get_chat_room_by_trade_offer_found.
Qed.

(** A trade offer id beyond 64 bits: the insertion is refused and nothing is
    stored. *)
Example create_chat_room_refuses_wide_integer :
  create_chat_room (ChatRoomCreate.mk (2 ^ 63) "carol" "dave") 60 w_sent
  = (inr OtherException, w_sent).
Proof. reflexivity. Qed.

Lemma create_chat_room_creates_witness :
  let r := ChatRoomDB.mk 2 200 "carol" "dave" true None 60 60 in
  reachable w_sent
  /\ room_with_trade_offer 200 w_sent = None
  /\ fits_int32 200 /\ fits_int32 (chat_rooms_id_seq w_sent)
  /\ fits_varchar 100 "carol" /\ fits_varchar 100 "dave"
  /\ exists w',
       create_chat_room (ChatRoomCreate.mk 200 "carol" "dave") 60 w_sent = (inl r, w')
       /\ get_chat_room_by_trade_offer 200 w' = (inl r, w').
Proof.
  cbv zeta.
  assert (H200 : fits_int32 200) by (unfold fits_int32; lia).
  assert (Hkey : fits_int32 (chat_rooms_id_seq w_sent))
    by (unfold fits_int32; simpl; lia).
  assert (Hcarol : fits_varchar 100 "carol")
    by (unfold fits_varchar; simpl; lia).
  assert (Hdave : fits_varchar 100 "dave")
    by (unfold fits_varchar; simpl; lia).
  split; [ exact w_sent_reachable | ]. split; [ reflexivity | ].
  repeat (split; [ assumption | ]).
  destruct (create_chat_room_creates (ChatRoomCreate.mk 200 "carol" "dave") 60 w_sent
              w_sent_reachable eq_refl H200 Hkey Hcarol Hdave)
    as (r & w' & Hcreate & -> & _ & _ & _ & Htrade).
  exists w'. split; [ exact Hcreate | exact Htrade ].
Defined.

(** ** Deactivating a room *)

Lemma room_with_id_deactivated pk now w chat_room :
  room_with_id pk w = Some chat_room ->
  room_with_id pk (deactivated_world (ChatRoomDB.id chat_room) now w)
  = Some (set_is_active chat_room false now).
Proof.
  intros Hroom. unfold room_with_id, deactivated_world. simpl.
  rewrite first_filter_map.
  - unfold room_with_id in Hroom. rewrite Hroom. simpl.
    apply first_filter_Some in Hroom as [_ Hid]. now rewrite Z.eqb_refl.
  - intros r. destruct (ChatRoomDB.id r =? ChatRoomDB.id chat_room); reflexivity.
Qed.

(** X4.  Deactivating a stored room succeeds and returns the room with the
    same key, trade offer, participants and last-message time, now inactive.
    Deactivating it again returns the same row and changes nothing, and no
    message can be sent to it any more: [send_message] raises the
    not-active error, whoever the sender is, and leaves the world as it is. *)
Theorem deactivate_chat_room_closes_room chat_room_id now now' w chat_room :
  room_with_id chat_room_id w = Some chat_room ->
  exists r' w',
    deactivate_chat_room chat_room_id now w = (inl r', w')
    /\ ChatRoomDB.is_active r' = false
    /\ room_key r' = room_key chat_room
    /\ ChatRoomDB.last_message_at r' = ChatRoomDB.last_message_at chat_room
    /\ messages w' = messages w
    /\ deactivate_chat_room chat_room_id now' w' = (inl r', w')
    /\ forall message,
         MessageCreate.chat_room_id message = chat_room_id ->
         send_message message now' w' = (inr (InvalidState chat_room_id), w').
Proof.
  intros Hroom.
  pose proof (deactivate_chat_room_cases chat_room_id now w) as H.
  rewrite Hroom in H.
  assert (Hclosed : forall r' w',
            room_with_id chat_room_id w' = Some r' ->
            ChatRoomDB.is_active r' = false ->
            deactivate_chat_room chat_room_id now' w' = (inl r', w')
            /\ forall message,
                 MessageCreate.chat_room_id message = chat_room_id ->
                 send_message message now' w' = (inr (InvalidState chat_room_id), w')).
  { intros r' w' Hr' Hinactive. split.
    - pose proof (deactivate_chat_room_cases chat_room_id now' w') as H'.
      now rewrite Hr', Hinactive in H'.
    - intros message <-.
      pose proof (send_message_cases message now' w') as H'.
      now rewrite Hr', Hinactive in H'. }
  destruct (ChatRoomDB.is_active chat_room) eqn:Hactive.
  - exists (set_is_active chat_room false now),
           (deactivated_world (ChatRoomDB.id chat_room) now w).
    destruct (Hclosed _ _ (room_with_id_deactivated _ now _ _ Hroom) eq_refl)
      as [Hagain Hsend].
    split; [ exact H | ]. repeat (split; [ reflexivity | ]).
    split; [ exact Hagain | exact Hsend ].
  - exists chat_room, w.
    destruct (Hclosed _ _ Hroom Hactive) as [Hagain Hsend].
    split; [ exact H | ]. split; [ exact Hactive | ].
    repeat (split; [ reflexivity | ]).
    split; [ exact Hagain | exact Hsend ].
Qed.

Lemma deactivate_chat_room_closes_room_witness :
  room_with_id 1 w_sent = Some (ChatRoomDB.mk 1 100 "alice" "bob" true (Some 20) 10 20)
  /\ exists r' w',
       deactivate_chat_room 1 50 w_sent = (inl r', w')
       /\ ChatRoomDB.is_active r' = false
       /\ send_message (MessageCreate.mk 1 "bob" "still there?") 60 w'
          = (inr (HTTPException 400 "Chat room 1 is not active"), w').
Proof.
  split; [ reflexivity | ].
  destruct (deactivate_chat_room_closes_room 1 50 60 w_sent
              (ChatRoomDB.mk 1 100 "alice" "bob" true (Some 20) 10 20) eq_refl)
    as (r' & w' & Hd & Hinactive & _ & _ & _ & _ & Hsend).
  exists r', w'. split; [ exact Hd | ]. split; [ exact Hinactive | ].
  exact (Hsend (MessageCreate.mk 1 "bob" "still there?") eq_refl).
Defined.

(** ** Failed requests *)

(** X5.  A request that fails changes nothing and costs no notification:
    whenever one of the handlers raises (one of its own checks fails, or the
    insertion of a room is refused), the world (tables, key sequences,
    posted requests) is exactly as before. *)
Theorem failed_request_changes_nothing now w e w' :
  (forall chat_room, create_chat_room chat_room now w = (inr e, w') -> w' = w)
  /\ (forall chat_room_id, get_chat_room chat_room_id w = (inr e, w') -> w' = w)
  /\ (forall trade_offer_id,
        get_chat_room_by_trade_offer trade_offer_id w = (inr e, w') -> w' = w)
  /\ (forall chat_room_id,
        deactivate_chat_room chat_room_id now w = (inr e, w') -> w' = w)
  /\ (forall message, send_message message now w = (inr e, w') -> w' = w)
  /\ (forall chat_room_id skip limit,
        list_messages chat_room_id skip limit w = (inr e, w') -> w' = w)
  /\ (forall message_id, get_message message_id w = (inr e, w') -> w' = w)
  /\ (forall message_id message_update,
        update_message message_id message_update now w = (inr e, w') -> w' = w)
  /\ (forall chat_room_id user_id,
        mark_messages_as_read chat_room_id user_id now w = (inr e, w') -> w' = w).
Proof.
  repeat match goal with |- _ /\ _ => split end.
  - intros chat_room H. pose proof (create_chat_room_cases chat_room now w) as Hc.
    destruct (room_with_trade_offer _ w);
      [ | destruct (fits_integer _ && fits_integer _) ];
      rewrite Hc in H; congruence.
  - intros chat_room_id. unfold get_chat_room. run_io.
    destruct (first _); congruence.
  - intros trade_offer_id. unfold get_chat_room_by_trade_offer. run_io.
    destruct (first _); congruence.
  - intros chat_room_id H.
    pose proof (deactivate_chat_room_cases chat_room_id now w) as Hc.
    destruct (room_with_id _ w) as [r | ];
      [ destruct (ChatRoomDB.is_active r) | ]; rewrite Hc in H; congruence.
  - intros message H. pose proof (send_message_cases message now w) as Hc.
    destruct (room_with_id _ w) as [r | ]; [ | rewrite Hc in H; congruence ].
    destruct (negb (ChatRoomDB.is_active r)); [ rewrite Hc in H; congruence | ].
    destruct (negb (str_in _ _)); [ rewrite Hc in H; congruence | ].
    destruct Hc as (url & data & Hc). rewrite Hc in H. discriminate.
  - intros chat_room_id skip limit. unfold list_messages. run_io.
    destruct (first _); simpl; congruence.
  - intros message_id. unfold get_message. run_io.
    destruct (first _); congruence.
  - intros message_id message_update H.
    pose proof (update_message_cases message_id message_update now w) as Hc.
    destruct (message_with_id _ w); [ | rewrite Hc in H; congruence ].
    destruct (MessageUpdate.status message_update);
      [ cbv zeta in Hc; destruct (negb _ || _) | ];
      rewrite Hc in H; discriminate.
  - intros chat_room_id user_id H.
    pose proof (mark_messages_as_read_cases chat_room_id user_id now w) as Hc.
    destruct (room_with_id _ w) as [r | ]; [ | rewrite Hc in H; congruence ].
    destruct (str_in _ _); rewrite Hc in H; congruence.
Qed.

(** A message for a deactivated room is refused and nothing is stored or
    posted. *)
Lemma failed_request_changes_nothing_witness :
  let r := send_message (MessageCreate.mk 1 "alice" "hi") 60 w_inactive in
  r = (inr (InvalidState 1), snd r) /\ snd r = w_inactive.
Proof.
  cbv zeta. split; [ reflexivity | ].
  apply (proj1 (proj2 (proj2 (proj2 (proj2
           (failed_request_changes_nothing 60 w_inactive (InvalidState 1)
              (snd (send_message (MessageCreate.mk 1 "alice" "hi") 60 w_inactive)))))))
           (MessageCreate.mk 1 "alice" "hi")).
  reflexivity.
Defined.

(** ** Sending a message *)

Lemma send_message_notification_post message recipient_id w :
  send_message_notification message recipient_id w
  = (inl tt,
     after_post notifications_url
       (notification_payload recipient_id (MessageDB.sender_id message)) w).
Proof.
  unfold send_message_notification, bind.
  rewrite send_notification_with_retry_once. reflexivity.
Qed.

(** A successful [send_message], in full. *)
Lemma send_message_succeeds message now w chat_room :
  room_with_id (MessageCreate.chat_room_id message) w = Some chat_room ->
  ChatRoomDB.is_active chat_room = true ->
  str_in (MessageCreate.sender_id message)
    [ChatRoomDB.user1_id chat_room; ChatRoomDB.user2_id chat_room] = true ->
  send_message message now w
  = (inl (sent_row message now w),
     after_post notifications_url
       (notification_payload
          (recipient_of (MessageCreate.sender_id message) chat_room)
          (MessageCreate.sender_id message))
       (sent_world message now chat_room w)).
Proof.
  unfold room_with_id. intros Hroom Hactive Hsender.
  unfold send_message. run_io. rewrite Hroom, Hactive, Hsender. simpl.
  rewrite send_message_notification_post. reflexivity.
Qed.

Lemma room_with_id_sent message now w chat_room :
  room_with_id (MessageCreate.chat_room_id message) w = Some chat_room ->
  room_with_id (MessageCreate.chat_room_id message)
    (sent_world message now chat_room w)
  = Some (set_last_message_at chat_room now now).
Proof.
  intros Hroom. unfold room_with_id, sent_world. simpl.
  rewrite first_filter_map.
  - unfold room_with_id in Hroom. rewrite Hroom. simpl. now rewrite Z.eqb_refl.
  - intros r. destruct (ChatRoomDB.id r =? ChatRoomDB.id chat_room); reflexivity.
Qed.

(** X6.  A successful [send_message] appends exactly one message, with the
    next key, status [sent], no read timestamp and creation time [now]; it
    sets the last-message time of the room to that same instant and leaves
    the room's key, participants and active flag, and every other room, as
    they were.  In a reachable state [get_message] returns the new message
    right away. *)
Theorem send_message_persists message now w chat_room :
  reachable w ->
  room_with_id (MessageCreate.chat_room_id message) w = Some chat_room ->
  ChatRoomDB.is_active chat_room = true ->
  str_in (MessageCreate.sender_id message)
    [ChatRoomDB.user1_id chat_room; ChatRoomDB.user2_id chat_room] = true ->
  exists m w',
    send_message message now w = (inl m, w')
    /\ m = MessageDB.mk (messages_id_seq w) (MessageCreate.chat_room_id message)
             (MessageCreate.sender_id message) (MessageCreate.content message)
             "sent" None now now
    /\ messages w' = messages w ++ [m]
    /\ (exists r',
          room_with_id (MessageCreate.chat_room_id message) w' = Some r'
          /\ ChatRoomDB.last_message_at r' = Some (MessageDB.created_at m)
          /\ room_key r' = room_key chat_room
          /\ ChatRoomDB.is_active r' = true)
    /\ (forall r, In r (chat_rooms w) ->
          ChatRoomDB.id r <> MessageCreate.chat_room_id message ->
          In r (chat_rooms w'))
    /\ get_message (MessageDB.id m) w' = (inl m, w').
Proof.
  intros Hreach Hroom Hactive Hsender.
  rewrite (send_message_succeeds message now w chat_room Hroom Hactive Hsender).
  eexists. eexists. split; [ reflexivity | ].
  split; [ reflexivity | ]. split; [ reflexivity | ].
  split; [ | split ].
  - exists (set_last_message_at chat_room now now).
    split; [ exact (room_with_id_sent message now w chat_room Hroom) | ].
    repeat split. exact Hactive.
  - intros r Hr Hid. simpl. apply in_map_iff. exists r. split; [ | exact Hr ].
    apply first_filter_Some in Hroom as [_ Hcid]. apply Z.eqb_eq in Hcid.
    replace (ChatRoomDB.id r =? ChatRoomDB.id chat_room) with false;
      [ reflexivity | ].
    symmetry. apply Z.eqb_neq. congruence.
  - apply get_message_found.
    apply (message_lookup _ (sent_row message now w)).
    + apply after_post_wf, sent_world_wf; [ exact Hroom | ].
      eapply reachable_by_wf; eauto.
    + simpl. apply in_or_app. right. now left.
Qed.

Lemma send_message_persists_witness :
  reachable w_room
  /\ room_with_id 1 w_room = Some (ChatRoomDB.mk 1 100 "alice" "bob" true None 10 10)
  /\ exists m w',
       send_message (MessageCreate.mk 1 "alice" "hi") 20 w_room = (inl m, w')
       /\ m = MessageDB.mk 1 1 "alice" "hi" "sent" None 20 20
       /\ get_message 1 w' = (inl m, w').
Proof.
  split; [ exact w_room_reachable | ]. split; [ reflexivity | ].
  destruct (send_message_persists (MessageCreate.mk 1 "alice" "hi") 20 w_room
              (ChatRoomDB.mk 1 100 "alice" "bob" true None 10 10)
              w_room_reachable eq_refl eq_refl eq_refl)
    as (m & w' & Hsend & Hm & _ & _ & _ & Hget).
  exists m, w'. split; [ exact Hsend | ].
  split; [ exact Hm | ].
  rewrite Hm in Hget. simpl in Hget. rewrite Hm. exact Hget.
Defined.

Lemma str_in_pair x a b :
  str_in x [a; b] = true <-> x = a \/ x = b.
Proof.
  unfold str_in. simpl. rewrite orb_false_r, orb_true_iff, !String.eqb_eq.
  reflexivity.
Qed.

(** X7.  A successful [send_message] posts exactly one notification, to the
    notifications endpoint, after the message is stored and without any
    wait.  It is addressed to the room's other participant: to [user2_id]
    when the sender is [user1_id], else to [user1_id]; the addressee is a
    participant, and differs from the sender whenever the room's two
    participants differ.  The sender is named as [related_user_id]. *)
Theorem send_message_notifies_other_participant message now w chat_room :
  room_with_id (MessageCreate.chat_room_id message) w = Some chat_room ->
  ChatRoomDB.is_active chat_room = true ->
  str_in (MessageCreate.sender_id message)
    [ChatRoomDB.user1_id chat_room; ChatRoomDB.user2_id chat_room] = true ->
  exists recipient_id,
    posted (snd (send_message message now w))
    = posted w
      ++ [("http://notifications_service:8000/api/v1/notifications",
           [("user_id", recipient_id);
            ("type", "new_message");
            ("title", ("New Message " ++ title_suffix)%string);
            ("body", "You have a new message");
            ("related_user_id", MessageCreate.sender_id message)])]
    /\ slept (snd (send_message message now w)) = slept w
    /\ (recipient_id = ChatRoomDB.user1_id chat_room
        \/ recipient_id = ChatRoomDB.user2_id chat_room)
    /\ (ChatRoomDB.user1_id chat_room <> ChatRoomDB.user2_id chat_room ->
        recipient_id <> MessageCreate.sender_id message).
Proof.
  intros Hroom Hactive Hsender.
  rewrite (send_message_succeeds message now w chat_room Hroom Hactive Hsender).
  exists (recipient_of (MessageCreate.sender_id message) chat_room).
  split; [ reflexivity | ]. split; [ reflexivity | ].
  apply str_in_pair in Hsender. unfold recipient_of.
  destruct (String.eqb_spec (MessageCreate.sender_id message)
              (ChatRoomDB.user1_id chat_room)) as [Heq | Hneq].
  - split; [ now right | ]. intros Hdistinct. congruence.
  - split; [ now left | ]. intros _. congruence.
Qed.

Lemma send_message_notifies_other_participant_witness :
  room_with_id 1 w_room = Some (ChatRoomDB.mk 1 100 "alice" "bob" true None 10 10)
  /\ exists recipient_id,
       posted (snd (send_message (MessageCreate.mk 1 "alice" "hi") 20 w_room))
       = [("http://notifications_service:8000/api/v1/notifications",
           [("user_id", recipient_id);
            ("type", "new_message");
            ("title", ("New Message " ++ title_suffix)%string);
            ("body", "You have a new message");
            ("related_user_id", "alice")])]
       /\ recipient_id <> "alice".
Proof.
  split; [ reflexivity | ].
  destruct (send_message_notifies_other_participant
              (MessageCreate.mk 1 "alice" "hi") 20 w_room
              (ChatRoomDB.mk 1 100 "alice" "bob" true None 10 10)
              eq_refl eq_refl eq_refl)
    as (recipient_id & Hposted & _ & _ & Hother).
  exists recipient_id. split; [ exact Hposted | ].
  apply Hother. discriminate.
Defined.

Lemma unread_count_of_length chat_room_id user_id w :
  unread_count_of chat_room_id user_id w
  = Z.of_nat (List.length
                (filter (fun m => (MessageDB.chat_room_id m =? chat_room_id)
                                  && is_unread_for user_id m)
                   (messages w))).
Proof. unfold unread_count_of. apply or_0_scalar_count. Qed.

(** X8.  A successful [send_message] raises the unread count of its room by
    one for every viewer but the sender, leaves it as it was for the sender,
    and leaves the unread counts of every other room untouched. *)
Theorem send_message_unread_counts message now w chat_room viewer chat_room_id :
  room_with_id (MessageCreate.chat_room_id message) w = Some chat_room ->
  ChatRoomDB.is_active chat_room = true ->
  str_in (MessageCreate.sender_id message)
    [ChatRoomDB.user1_id chat_room; ChatRoomDB.user2_id chat_room] = true ->
  unread_count_of chat_room_id viewer (snd (send_message message now w))
  = unread_count_of chat_room_id viewer w
    + (if (MessageCreate.chat_room_id message =? chat_room_id)
          && negb (String.eqb (MessageCreate.sender_id message) viewer)
       then 1 else 0).
Proof.
  intros Hroom Hactive Hsender.
  rewrite (send_message_succeeds message now w chat_room Hroom Hactive Hsender).
  rewrite !unread_count_of_length. simpl.
  rewrite filter_app, length_app, Nat2Z.inj_add. f_equal. simpl.
  unfold is_unread_for. simpl. rewrite andb_true_r.
  destruct (_ && _); reflexivity.
Qed.

Lemma send_message_unread_counts_witness :
  room_with_id 1 w_room = Some (ChatRoomDB.mk 1 100 "alice" "bob" true None 10 10)
  /\ unread_count_of 1 "bob" w_sent = unread_count_of 1 "bob" w_room + 1
  /\ unread_count_of 1 "alice" w_sent = unread_count_of 1 "alice" w_room + 0.
Proof.
  split; [ reflexivity | ]. split.
  - exact (send_message_unread_counts (MessageCreate.mk 1 "alice" "hi") 20 w_room
             (ChatRoomDB.mk 1 100 "alice" "bob" true None 10 10) "bob" 1
             eq_refl eq_refl eq_refl).
  - exact (send_message_unread_counts (MessageCreate.mk 1 "alice" "hi") 20 w_room
             (ChatRoomDB.mk 1 100 "alice" "bob" true None 10 10) "alice" 1
             eq_refl eq_refl eq_refl).
Defined.

(** ** Listing entries *)

Lemma In_firstn {A} n (l : list A) x : In x (firstn n l) -> In x l.
Proof. intros H. rewrite <- (firstn_skipn n l). apply in_or_app. now left. Qed.

Lemma In_skipn {A} n (l : list A) x : In x (skipn n l) -> In x l.
Proof. intros H. rewrite <- (firstn_skipn n l). apply in_or_app. now right. Qed.

Lemma list_chat_rooms_query_In user_id active_only skip limit w r :
  In r (list_chat_rooms_query user_id active_only skip limit w) ->
  In r (chat_rooms w) /\ in_listing user_id active_only r = true.
Proof.
  unfold list_chat_rooms_query. rewrite list_chat_rooms_selection.
  intros H. apply In_firstn, In_skipn in H.
  apply (Permutation_in _ (Permutation_sym (RoomSort.Permuted_sort _))) in H.
  now apply filter_In in H.
Qed.

Lemma list_chat_rooms_entries user_id active_only skip limit w :
  list_chat_rooms user_id active_only skip limit w
  = (inl (map (listing_entry user_id w)
            (list_chat_rooms_query user_id active_only skip limit w)),
     w).
Proof. reflexivity. Qed.

Lemma list_chat_rooms_entry user_id active_only skip limit w page x :
  list_chat_rooms user_id active_only skip limit w = (inl page, w) ->
  In x page ->
  exists room,
    In room (chat_rooms w)
    /\ in_listing user_id active_only room = true
    /\ x = listing_entry user_id w room.
Proof.
  rewrite list_chat_rooms_entries. intros H Hx. injection H as <-.
  apply in_map_iff in Hx as (room & <- & Hroom).
  apply list_chat_rooms_query_In in Hroom as [Hin Hsel].
  exists room. auto.
Qed.

(** ** Marking a room read *)

Lemma unread_from_others_listing chat_room_id user_id m :
  unread_from_others chat_room_id user_id m
  = (MessageDB.chat_room_id m =? chat_room_id) && is_unread_for user_id m.
Proof. unfold unread_from_others, is_unread_for. now rewrite andb_assoc. Qed.

Lemma mark_read_not_unread chat_room_id user_id now m :
  unread_from_others chat_room_id user_id (mark_read now m) = false.
Proof. unfold unread_from_others. simpl. apply andb_false_r. Qed.

(** X9.  For a stored room and one of its participants,
    [mark_messages_as_read] reports as updated count exactly the unread
    count the listing showed that user for the room, and afterwards the
    listing shows the user an unread count of 0 for it, on every page and
    with either value of [active_only]. *)
Theorem mark_messages_as_read_clears_unread_count chat_room_id user_id now w chat_room :
  room_with_id chat_room_id w = Some chat_room ->
  str_in user_id [ChatRoomDB.user1_id chat_room; ChatRoomDB.user2_id chat_room] = true ->
  exists w1,
    mark_messages_as_read chat_room_id user_id now w
    = (inl (MarkReadResponse.mk "Messages marked as read"
              (unread_count_of chat_room_id user_id w)), w1)
    /\ unread_count_of chat_room_id user_id w1 = 0
    /\ forall active_only skip limit page x,
         list_chat_rooms user_id active_only skip limit w1 = (inl page, w1) ->
         In x page -> ChatRoomWithLastMessage.id x = chat_room_id ->
         ChatRoomWithLastMessage.unread_count x = 0.
Proof.
  intros Hroom Huser.
  pose proof (mark_messages_as_read_cases chat_room_id user_id now w) as H.
  rewrite Hroom, Huser in H.
  exists (snd (update_messages (unread_from_others chat_room_id user_id)
                 (mark_read now) w)).
  assert (Hzero : unread_count_of chat_room_id user_id
                    (snd (update_messages (unread_from_others chat_room_id user_id)
                            (mark_read now) w)) = 0).
  { rewrite unread_count_of_length. simpl.
    rewrite filter_all_false; [ reflexivity | ].
    intros m Hm. rewrite <- unread_from_others_listing.
    apply in_map_iff in Hm as (m0 & <- & _).
    destruct (unread_from_others chat_room_id user_id m0) eqn:Hp; [ | exact Hp ].
    apply mark_read_not_unread. }
  split; [ | split ].
  - rewrite H. do 2 f_equal. rewrite unread_count_of_length. do 3 f_equal.
    apply filter_ext. intros m. apply unread_from_others_listing.
  - exact Hzero.
  - intros active_only skip limit page x Hlist Hx Hid.
    destruct (list_chat_rooms_entry _ _ _ _ _ _ _ Hlist Hx) as (room & _ & _ & ->).
    simpl in *. rewrite Hid. exact Hzero.
Qed.

Lemma mark_messages_as_read_clears_unread_count_witness :
  room_with_id 1 w_sent = Some (ChatRoomDB.mk 1 100 "alice" "bob" true (Some 20) 10 20)
  /\ exists w1,
       mark_messages_as_read 1 "bob" 70 w_sent
       = (inl (MarkReadResponse.mk "Messages marked as read" 1), w1)
       /\ unread_count_of 1 "bob" w1 = 0.
Proof.
  split; [ reflexivity | ].
  destruct (mark_messages_as_read_clears_unread_count 1 "bob" 70 w_sent
              (ChatRoomDB.mk 1 100 "alice" "bob" true (Some 20) 10 20)
              eq_refl eq_refl)
    as (w1 & Hmark & Hzero & _).
  exists w1. split; [ exact Hmark | exact Hzero ].
Defined.

(** X10.  What a successful [mark_messages_as_read] changes and what it
    leaves alone: the rooms are untouched; a message of the room that the
    user did not send and that is not [read] gets status [read] and read
    timestamp [now], its key, room, sender, content and creation time
    unchanged; every other message (another room's, the user's own, or one
    already [read]) stays in the table exactly as it was. *)
Theorem mark_messages_as_read_frame chat_room_id user_id now w chat_room m :
  room_with_id chat_room_id w = Some chat_room ->
  str_in user_id [ChatRoomDB.user1_id chat_room; ChatRoomDB.user2_id chat_room] = true ->
  In m (messages w) ->
  let w1 := snd (mark_messages_as_read chat_room_id user_id now w) in
  chat_rooms w1 = chat_rooms w
  /\ List.length (messages w1) = List.length (messages w)
  /\ (if (MessageDB.chat_room_id m =? chat_room_id)
         && negb (String.eqb (MessageDB.sender_id m) user_id)
         && negb (String.eqb (MessageDB.status m) "read")
      then exists m',
             In m' (messages w1)
             /\ message_key m' = message_key m
             /\ MessageDB.status m' = "read"
             /\ MessageDB.read_at m' = Some now
      else In m (messages w1)).
Proof.
  intros Hroom Huser Hm.
  pose proof (mark_messages_as_read_cases chat_room_id user_id now w) as H.
  rewrite Hroom, Huser in H. rewrite H. cbv zeta. simpl.
  split; [ reflexivity | ]. split; [ apply length_map | ].
  change ((MessageDB.chat_room_id m =? chat_room_id)
          && negb (String.eqb (MessageDB.sender_id m) user_id)
          && negb (String.eqb (MessageDB.status m) "read"))
    with (unread_from_others chat_room_id user_id m).
  destruct (unread_from_others chat_room_id user_id m) eqn:Hp.
  - exists (mark_read now m). split; [ | repeat split ].
    apply in_map_iff. exists m. now rewrite Hp.
  - apply in_map_iff. exists m. now rewrite Hp.
Qed.

Lemma mark_messages_as_read_frame_witness :
  let m := MessageDB.mk 1 1 "alice" "hi" "sent" None 20 20 in
  room_with_id 1 w_sent = Some (ChatRoomDB.mk 1 100 "alice" "bob" true (Some 20) 10 20)
  /\ In m (messages w_sent)
  /\ In m (messages (snd (mark_messages_as_read 1 "alice" 70 w_sent))).
Proof.
  cbv zeta. split; [ reflexivity | ]. split; [ left; reflexivity | ].
  exact (proj2 (proj2 (mark_messages_as_read_frame 1 "alice" 70 w_sent
                         (ChatRoomDB.mk 1 100 "alice" "bob" true (Some 20) 10 20)
                         (MessageDB.mk 1 1 "alice" "hi" "sent" None 20 20)
                         eq_refl eq_refl (or_introl eq_refl)))).
Defined.

(** ** Updating the status of a message *)

(** X11.  In a reachable state, [update_message] with a status on a stored
    message returns that message with the status written as given and with
    its key, room, sender, content and creation time unchanged.  A read
    timestamp that is already set is never changed; one that is not set is
    set to [now] exactly when the new status is [read].  Afterwards
    [get_message] returns the updated row; the rooms and all other messages
    are as before. *)
Theorem update_message_writes_status new_status now w m :
  reachable w -> In m (messages w) ->
  exists m' w',
    update_message (MessageDB.id m) (MessageUpdate.mk (Some new_status)) now w
    = (inl m', w')
    /\ MessageDB.status m' = MessageStatus.value new_status
    /\ message_key m' = message_key m
    /\ MessageDB.read_at m'
       = match MessageDB.read_at m with
         | Some t => Some t
         | None => if MessageStatus.eqb new_status MessageStatus.read
                   then Some now else None
         end
    /\ get_message (MessageDB.id m) w' = (inl m', w')
    /\ chat_rooms w' = chat_rooms w
    /\ forall m0, In m0 (messages w) -> MessageDB.id m0 <> MessageDB.id m ->
                  In m0 (messages w').
Proof.
  intros Hreach Hin.
  pose proof (reachable_by_wf _ _ Hreach) as Hwf.
  pose proof (message_lookup w m Hwf Hin) as Hlookup.
  pose proof (update_message_cases (MessageDB.id m)
                (MessageUpdate.mk (Some new_status)) now w) as H.
  rewrite Hlookup in H. simpl in H.
  destruct (negb (String.eqb (MessageDB.status m) (MessageStatus.value new_status))
            || stamps_read_at new_status m) eqn:Hdirty.
  - eexists. eexists. split; [ exact H | ].
    split; [ unfold assign_status; destruct (stamps_read_at new_status m);
             reflexivity | ].
    split; [ apply assign_status_key | ].
    split; [ | split; [ | split ] ].
    + unfold assign_status, stamps_read_at.
      destruct (MessageStatus.eqb new_status MessageStatus.read);
        destruct (MessageDB.read_at m) eqn:Hread; simpl; rewrite ?Hread;
        reflexivity.
    + apply get_message_found. unfold message_with_id. simpl.
      rewrite first_filter_map.
      * unfold message_with_id in Hlookup. rewrite Hlookup. simpl.
        now rewrite Z.eqb_refl.
      * intros m0. cbv beta. f_equal.
        destruct (MessageDB.id m0 =? MessageDB.id m); [ | reflexivity ].
        unfold assign_status. destruct (stamps_read_at new_status m); reflexivity.
    + reflexivity.
    + intros m0 Hm0 Hneq. simpl. apply in_map_iff. exists m0.
      split; [ | exact Hm0 ].
      apply Z.eqb_neq in Hneq. now rewrite Hneq.
  - apply orb_false_iff in Hdirty as [Hsame Hstamp].
    apply negb_false_iff, String.eqb_eq in Hsame.
    exists m, w. split; [ exact H | ]. split; [ exact Hsame | ].
    split; [ reflexivity | ]. split; [ | split; [ | split ] ].
    + unfold stamps_read_at in Hstamp.
      destruct (MessageStatus.eqb new_status MessageStatus.read),
        (MessageDB.read_at m); try reflexivity; discriminate.
    + now apply get_message_found.
    + reflexivity.
    + auto.
Qed.

Lemma update_message_writes_status_witness :
  let m := MessageDB.mk 1 1 "alice" "hi" "sent" None 20 20 in
  reachable w_sent /\ In m (messages w_sent)
  /\ exists m' w',
       update_message 1 (MessageUpdate.mk (Some MessageStatus.read)) 30 w_sent
       = (inl m', w')
       /\ MessageDB.status m' = "read"
       /\ MessageDB.read_at m' = Some 30.
Proof.
  cbv zeta. split; [ exact w_sent_reachable | ]. split; [ left; reflexivity | ].
  destruct (update_message_writes_status MessageStatus.read 30 w_sent
              (MessageDB.mk 1 1 "alice" "hi" "sent" None 20 20)
              w_sent_reachable (or_introl eq_refl))
    as (m' & w' & Hupd & Hst & _ & Hread & _).
  exists m', w'. split; [ exact Hupd | ]. split; [ exact Hst | exact Hread ].
Defined.

(** ** Listing the messages of a room *)

Lemma asc_created_at_trans a b c :
  asc_created_at a b = true -> asc_created_at b c = true ->
  asc_created_at a c = true.
Proof.
  unfold asc_created_at. intros H1 H2.
  apply Z.leb_le in H1, H2. apply Z.leb_le. lia.
Qed.

(** X12.  [list_messages] raises the not-found error when the room is not
    stored.  Otherwise it returns, without changing anything, a page
    ([skip] rows in, at most [limit] rows long) of a list that holds exactly
    the messages of the room, each once, ordered by creation time ascending;
    in particular every message returned belongs to the room. *)
Theorem list_messages_ordered_page chat_room_id skip limit w :
  match room_with_id chat_room_id w with
  | None =>
      list_messages chat_room_id skip limit w
      = (inr (HTTPException 404 ("Chat room " ++ str chat_room_id ++ " not found")%string),
         w)
  | Some _ =>
      exists ordered,
        Permutation
          (filter (fun m => MessageDB.chat_room_id m =? chat_room_id) (messages w))
          ordered
        /\ StronglySorted
             (fun a b => MessageDB.created_at a <= MessageDB.created_at b) ordered
        /\ list_messages chat_room_id skip limit w
           = (inl (firstn limit (skipn skip ordered)), w)
        /\ (List.length (firstn limit (skipn skip ordered)) <= limit)%nat
        /\ forall m, In m (firstn limit (skipn skip ordered)) ->
                     In m (messages w) /\ MessageDB.chat_room_id m = chat_room_id
  end.
Proof.
  unfold list_messages, room_with_id. run_io.
  destruct (first _) as [chat_room | ]; simpl; [ | reflexivity ].
  set (rows := filter (fun m => MessageDB.chat_room_id m =? chat_room_id) (messages w)).
  exists (MessageAscSort.sort rows).
  split; [ apply MessageAscSort.Permuted_sort | ].
  split.
  { pose proof (MessageAscSort.StronglySorted_sort rows) as Hs.
    eapply StronglySorted_ind with (P := StronglySorted _);
      [ constructor | | apply Hs; intros a b c; apply asc_created_at_trans ].
    intros a l _ IH Hall. constructor; [ exact IH | ].
    eapply Forall_impl; [ | exact Hall ].
    intros b Hb. now apply Z.leb_le. }
  split; [ reflexivity | ].
  split; [ apply firstn_le_length | ].
  intros m Hm. apply In_firstn, In_skipn in Hm.
  apply (Permutation_in _ (Permutation_sym (MessageAscSort.Permuted_sort _))) in Hm.
  unfold rows in Hm. apply filter_In in Hm as [Hin Hroom].
  split; [ exact Hin | now apply Z.eqb_eq ].
Qed.

(** ** The last-message preview of the listing *)

Lemma desc_created_at_trans a b c :
  desc_created_at a b = true -> desc_created_at b c = true ->
  desc_created_at a c = true.
Proof.
  unfold desc_created_at. intros H1 H2.
  apply Z.leb_le in H1, H2. apply Z.leb_le. lia.
Qed.

(** The head of the messages sorted by creation time descending is a latest
    message. *)
Lemma first_sorted_is_latest l :
  match first (MessageSort.sort l) with
  | None => l = []
  | Some m =>
      In m l /\ forall m', In m' l -> MessageDB.created_at m' <= MessageDB.created_at m
  end.
Proof.
  pose proof (MessageSort.Permuted_sort l) as Hperm.
  pose proof (MessageSort.StronglySorted_sort l) as Hsorted.
  destruct (MessageSort.sort l) as [ | m rest] eqn:Hsort; simpl.
  - now apply Permutation_sym, Permutation_nil in Hperm.
  - split.
    + apply (Permutation_in _ (Permutation_sym Hperm)). now left.
    + intros m' Hm'. apply (Permutation_in _ Hperm) in Hm' as [<- | Hm']; [ lia | ].
      assert (Hs : StronglySorted (fun a b => desc_created_at a b = true) (m :: rest)).
      { apply Hsorted. intros a b c. apply desc_created_at_trans. }
      apply StronglySorted_inv in Hs as [_ Hall].
      rewrite Forall_forall in Hall. specialize (Hall m' Hm').
      now apply Z.leb_le in Hall.
Qed.

Lemma last_inserted_at_None chat_room_id w :
  last_inserted_at chat_room_id w = None <-> room_messages chat_room_id w = [].
Proof.
  unfold last_inserted_at.
  destruct (room_messages chat_room_id w) as [ | m l] using rev_ind.
  - simpl. tauto.
  - rewrite last_snoc_Some. simpl. split; [ discriminate | ].
    intros H. now apply app_eq_nil in H as [_ H].
Qed.

(** X13.  The preview of a listing entry: when the room has no message, the
    content and the sender of the last message are both null; otherwise
    they are the content and the sender of one message of the room whose
    creation time no message of the room exceeds.  In a reachable state the
    preview is null exactly when the room's last-message time is null. *)
Theorem list_chat_rooms_preview user_id active_only skip limit w page x :
  list_chat_rooms user_id active_only skip limit w = (inl page, w) ->
  In x page ->
  match filter (fun m => MessageDB.chat_room_id m =? ChatRoomWithLastMessage.id x)
          (messages w) with
  | [] =>
      ChatRoomWithLastMessage.last_message_content x = None
      /\ ChatRoomWithLastMessage.last_message_sender_id x = None
  | _ :: _ =>
      exists m,
        In m (messages w)
        /\ MessageDB.chat_room_id m = ChatRoomWithLastMessage.id x
        /\ ChatRoomWithLastMessage.last_message_content x = Some (MessageDB.content m)
        /\ ChatRoomWithLastMessage.last_message_sender_id x
           = Some (MessageDB.sender_id m)
        /\ forall m', In m' (messages w) ->
             MessageDB.chat_room_id m' = ChatRoomWithLastMessage.id x ->
             MessageDB.created_at m' <= MessageDB.created_at m
  end
  /\ (reachable w ->
      (ChatRoomWithLastMessage.last_message_at x = None
       <-> ChatRoomWithLastMessage.last_message_content x = None)).
Proof.
  intros Hlist Hx.
  destruct (list_chat_rooms_entry _ _ _ _ _ _ _ Hlist Hx) as (room & Hroom & _ & ->).
  simpl.
  change (filter (fun m => MessageDB.chat_room_id m =? ChatRoomDB.id room) (messages w))
    with (room_messages (ChatRoomDB.id room) w).
  pose proof (first_sorted_is_latest (room_messages (ChatRoomDB.id room) w)) as Hfirst.
  split.
  - destruct (first (MessageSort.sort (room_messages (ChatRoomDB.id room) w)))
      as [m | ].
    + destruct Hfirst as [Hin Hmax].
      destruct (room_messages (ChatRoomDB.id room) w) as [ | m0 l] eqn:Hrm;
        [ destruct Hin | ].
      rewrite <- Hrm in Hin, Hmax. unfold room_messages in Hin, Hmax.
      apply filter_In in Hin as [Hin Hcid]. apply Z.eqb_eq in Hcid.
      exists m. repeat split; auto.
      intros m' Hm' Hcid'. apply Hmax, filter_In. split; [ exact Hm' | ].
      now apply Z.eqb_eq.
    + rewrite Hfirst. simpl. auto.
  - intros Hreach.
    rewrite (last_message_at_tracks w (reachable_consistent w Hreach) room Hroom).
    rewrite last_inserted_at_None.
    destruct (first (MessageSort.sort (room_messages (ChatRoomDB.id room) w)))
      as [m | ]; simpl.
    + destruct Hfirst as [Hin _]. split; [ | discriminate ].
      intros Hnil. rewrite Hnil in Hin. destruct Hin.
    + tauto.
Qed.

Lemma list_chat_rooms_preview_witness :
  exists page x,
    list_chat_rooms "bob" true 0 50 w_sent = (inl page, w_sent)
    /\ In x page
    /\ ChatRoomWithLastMessage.last_message_content x = Some "hi"
    /\ (ChatRoomWithLastMessage.last_message_at x = None
        <-> ChatRoomWithLastMessage.last_message_content x = None).
Proof.
  eexists. eexists. split; [ reflexivity | ]. split; [ left; reflexivity | ].
  split; [ reflexivity | ].
  exact (proj2 (list_chat_rooms_preview "bob" true 0 50 w_sent _ _ eq_refl
                  (or_introl eq_refl)) w_sent_reachable).
Defined.

(** ** What holds in every reachable state *)

(** X14.  In every reachable state the status column of every message holds
    one of the three values of the enumeration. *)
Theorem stored_status_is_valid w m :
  reachable w -> In m (messages w) ->
  MessageDB.status m = "sent" \/ MessageDB.status m = "delivered"
  \/ MessageDB.status m = "read".
Proof.
  intros Hreach Hin.
  exact (statuses_valid w (reachable_consistent w Hreach) m Hin).
Qed.

Lemma stored_status_is_valid_witness :
  reachable w_regressed /\ In m_regressed (messages w_regressed)
  /\ (MessageDB.status m_regressed = "sent" \/ MessageDB.status m_regressed = "delivered"
      \/ MessageDB.status m_regressed = "read").
Proof.
  assert (Hin : In m_regressed (messages w_regressed)) by (left; reflexivity).
  split; [ exact w_regressed_reachable | ]. split; [ exact Hin | ].
  exact (stored_status_is_valid w_regressed m_regressed w_regressed_reachable Hin).
Defined.

(** X15.  In every reachable state every message belongs to exactly one
    stored room (the one its [chat_room_id] names) and its sender is one of
    the two participants of that room. *)
Theorem stored_sender_is_participant w m :
  reachable w -> In m (messages w) ->
  exists r,
    In r (chat_rooms w)
    /\ ChatRoomDB.id r = MessageDB.chat_room_id m
    /\ (MessageDB.sender_id m = ChatRoomDB.user1_id r
        \/ MessageDB.sender_id m = ChatRoomDB.user2_id r)
    /\ forall r', In r' (chat_rooms w) ->
         ChatRoomDB.id r' = MessageDB.chat_room_id m -> r' = r.
Proof.
  intros Hreach Hin.
  destruct (senders_participate w (reachable_consistent w Hreach) m Hin)
    as (r & Hr & Hid & Hp).
  exists r. split; [ exact Hr | ]. split; [ exact Hid | ].
  split; [ now apply str_in_pair | ].
  intros r' Hr' Hid'.
  eapply NoDup_map_eq;
    [ apply (wf_room_ids w (reachable_by_wf _ w Hreach)) | exact Hr' | exact Hr
    | congruence ].
Qed.

Lemma stored_sender_is_participant_witness :
  reachable w_read /\ In m_read (messages w_read)
  /\ exists r,
       In r (chat_rooms w_read)
       /\ ChatRoomDB.id r = 1
       /\ ("alice" = ChatRoomDB.user1_id r \/ "alice" = ChatRoomDB.user2_id r).
Proof.
  assert (Hin : In m_read (messages w_read)) by (left; reflexivity).
  split; [ exact w_read_reachable | ]. split; [ exact Hin | ].
  destruct (stored_sender_is_participant w_read m_read w_read_reachable Hin)
    as (r & Hr & Hid & Hp & _).
  exists r. auto.
Defined.

(** X16.  In every reachable state a room's last-message time is null
    exactly when the room has no message, and otherwise it is the creation
    time of the message of the room that was inserted last. *)
Theorem room_last_message_at_tracks_messages w r :
  reachable w -> In r (chat_rooms w) ->
  let of_room :=
    filter (fun m => MessageDB.chat_room_id m =? ChatRoomDB.id r) (messages w) in
  (ChatRoomDB.last_message_at r = None <-> of_room = [])
  /\ forall earlier m, of_room = earlier ++ [m] ->
       ChatRoomDB.last_message_at r = Some (MessageDB.created_at m).
Proof.
  intros Hreach Hin. cbv zeta.
  change (filter (fun m => MessageDB.chat_room_id m =? ChatRoomDB.id r) (messages w))
    with (room_messages (ChatRoomDB.id r) w).
  rewrite (last_message_at_tracks w (reachable_consistent w Hreach) r Hin).
  split; [ apply last_inserted_at_None | ].
  intros earlier m Heq. unfold last_inserted_at. rewrite Heq, last_snoc_Some.
  reflexivity.
Qed.

Lemma room_last_message_at_tracks_messages_witness :
  let r := ChatRoomDB.mk 1 100 "alice" "bob" true (Some 20) 10 20 in
  reachable w_sent /\ In r (chat_rooms w_sent)
  /\ ChatRoomDB.last_message_at r
     = Some (MessageDB.created_at (MessageDB.mk 1 1 "alice" "hi" "sent" None 20 20)).
Proof.
  cbv zeta.
  assert (Hin : In (ChatRoomDB.mk 1 100 "alice" "bob" true (Some 20) 10 20)
                  (chat_rooms w_sent)) by (left; reflexivity).
  split; [ exact w_sent_reachable | ]. split; [ exact Hin | ].
  exact (proj2 (room_last_message_at_tracks_messages w_sent _ w_sent_reachable Hin)
           [] (MessageDB.mk 1 1 "alice" "hi" "sent" None 20 20) eq_refl).
Defined.

(** ** Messages are never deleted or rewritten *)

Lemma map_message_key_update (p : MessageDB.t -> bool) f l :
  (forall m, message_key (f m) = message_key m) ->
  map message_key (map (fun m => if p m then f m else m) l) = map message_key l.
Proof.
  intros Hf. apply map_map_same. intros m. destruct (p m); auto.
Qed.

Lemma db_change_message_keys w w' :
  db_change w w' ->
  exists tail,
    map message_key (messages w') = map message_key (messages w) ++ tail.
Proof.
  intros [ | | | message now chat_room url data _ _ _ | message new_status now _
         | chat_room_id user_id now ]; simpl.
  - exists []. now rewrite app_nil_r.
  - exists []. now rewrite app_nil_r.
  - exists []. now rewrite app_nil_r.
  - eexists. rewrite map_app. reflexivity.
  - exists []. rewrite app_nil_r. apply map_message_key_update.
    intros m. apply assign_status_key.
  - exists []. rewrite app_nil_r. apply map_message_key_update.
    intros m. apply mark_read_key.
Qed.

Lemma steps_by_message_keys allowed w w' :
  steps_by allowed w w' ->
  exists tail,
    map message_key (messages w') = map message_key (messages w) ++ tail.
Proof.
  induction 1 as [ | w' req now _ [tail IH] _].
  - exists []. now rewrite app_nil_r.
  - destruct (db_change_message_keys _ _ (handle_db_change req now w')) as [tail' ->].
    rewrite IH, <- app_assoc. eauto.
Qed.

(** X17.  No request deletes, moves or rewrites a message: whatever
    requests are served, the table keeps its rows in place, each with its
    key, room, sender, content and creation time, and only grows at the end.
    So a stored message is still stored, with these columns unchanged, in
    every later state. *)
Theorem messages_are_kept w w' m :
  steps w w' -> In m (messages w) ->
  (exists tail,
      map message_key (messages w') = map message_key (messages w) ++ tail)
  /\ exists m',
       In m' (messages w')
       /\ MessageDB.id m' = MessageDB.id m
       /\ MessageDB.chat_room_id m' = MessageDB.chat_room_id m
       /\ MessageDB.sender_id m' = MessageDB.sender_id m
       /\ MessageDB.content m' = MessageDB.content m
       /\ MessageDB.created_at m' = MessageDB.created_at m.
Proof.
  intros Hsteps Hin.
  destruct (steps_by_message_keys _ _ _ Hsteps) as [tail Hkeys].
  split; [ eauto | ].
  assert (Hkey : In (message_key m) (map message_key (messages w'))).
  { rewrite Hkeys. apply in_or_app. left. now apply in_map. }
  apply in_map_iff in Hkey as (m' & Hkey' & Hin').
  exists m'. split; [ exact Hin' | ].
  now apply message_key_fields.
Qed.

Lemma messages_are_kept_witness :
  let m := MessageDB.mk 1 1 "alice" "hi" "sent" None 20 20 in
  steps w_sent w_regressed /\ In m (messages w_sent)
  /\ exists m',
       In m' (messages w_regressed)
       /\ MessageDB.id m' = 1
       /\ MessageDB.content m' = "hi".
Proof.
  cbv zeta.
  assert (Hsteps : steps w_sent w_regressed).
  { unfold w_regressed, w_read.
    apply steps_step; [ | exact I ]. apply steps_step; [ | exact I ].
    apply steps_refl. }
  assert (Hin : In (MessageDB.mk 1 1 "alice" "hi" "sent" None 20 20)
                  (messages w_sent)) by (left; reflexivity).
  split; [ exact Hsteps | ]. split; [ exact Hin | ].
  destruct (messages_are_kept w_sent w_regressed _ Hsteps Hin)
    as (_ & m' & Hin' & Hid & _ & _ & Hcontent & _).
  exists m'. auto.
Defined.

(** ** Statistics *)

Lemma filter_andb_length_le {A} (p q : A -> bool) l :
  (List.length (filter (fun a => p a && q a) l) <= List.length (filter p l))%nat.
Proof. rewrite <- filter_filter_andb. apply filter_length_le. Qed.

(** X18.  The counters of [get_statistics] are coherent, for every scope:
    the active rooms are at most the rooms counted, the unread messages at
    most the messages counted, and no counter exceeds the size of its
    table. *)
Theorem get_statistics_bounds user_id w :
  exists s,
    get_statistics user_id w = (inl s, w)
    /\ ChatStatistics.active_rooms s <= ChatStatistics.total_rooms s
    /\ ChatStatistics.total_unread_messages s <= ChatStatistics.total_messages s
    /\ ChatStatistics.total_rooms s <= Z.of_nat (List.length (chat_rooms w))
    /\ ChatStatistics.total_messages s <= Z.of_nat (List.length (messages w)).
Proof.
  unfold get_statistics.
  assert (Hglobal :
    exists s,
      (let '(a, b, c, d) := global_statistics w in
       (@inl ChatStatistics.t exn
          (ChatStatistics.mk (or_0 a) (or_0 b) (or_0 c) (or_0 d)), w))
      = (inl s, w)
      /\ ChatStatistics.active_rooms s <= ChatStatistics.total_rooms s
      /\ ChatStatistics.total_unread_messages s <= ChatStatistics.total_messages s
      /\ ChatStatistics.total_rooms s <= Z.of_nat (List.length (chat_rooms w))
      /\ ChatStatistics.total_messages s <= Z.of_nat (List.length (messages w))).
  { unfold global_statistics. eexists. split; [ reflexivity | ].
    cbn [ChatStatistics.total_rooms ChatStatistics.active_rooms
         ChatStatistics.total_messages ChatStatistics.total_unread_messages].
    rewrite !or_0_scalar_count.
    repeat split; try lia; apply Nat2Z.inj_le, filter_length_le. }
  destruct user_id as [u | ]; [ | exact Hglobal ].
  destruct (truthy_str (Some u)); [ | exact Hglobal ].
  unfold user_statistics. eexists. split; [ reflexivity | ].
  cbn [ChatStatistics.total_rooms ChatStatistics.active_rooms
       ChatStatistics.total_messages ChatStatistics.total_unread_messages].
  rewrite !or_0_scalar_count.
  split; [ apply Nat2Z.inj_le, filter_andb_length_le | ].
  split; [ | split; [ apply Nat2Z.inj_le, filter_length_le | ] ].
  - destruct (map ChatRoomDB.id (filter (is_participant u) (chat_rooms w)));
      [ simpl; lia | ].
    rewrite !or_0_scalar_count.
    apply Nat2Z.inj_le, filter_andb_length_le.
  - destruct (map ChatRoomDB.id (filter (is_participant u) (chat_rooms w)));
      [ simpl; lia | ].
    rewrite or_0_scalar_count. apply Nat2Z.inj_le, filter_length_le.
Qed.

Lemma sumZ_Permutation l l' : Permutation l l' -> sumZ l = sumZ l'.
Proof. induction 1; simpl; lia. Qed.

Lemma filter_orb_disjoint_length {A} (a b q : A -> bool) l :
  (forall x, In x l -> a x = true -> b x = false) ->
  List.length (filter (fun x => (a x || b x) && q x) l)
  = (List.length (filter (fun x => a x && q x) l)
     + List.length (filter (fun x => b x && q x) l))%nat.
Proof.
  induction l as [ | x l IH]; intros Hdisj; [ reflexivity | ].
  assert (IH' := IH (fun y Hy => Hdisj y (or_intror Hy))).
  pose proof (Hdisj x (or_introl eq_refl)) as Hx.
  simpl. destruct (a x), (b x), (q x); simpl; rewrite ?IH'; try lia.
  all: discriminate (Hx eq_refl).
Qed.

Lemma NoDup_map_filter {A B} (f : A -> B) (p : A -> bool) l :
  NoDup (map f l) -> NoDup (map f (filter p l)).
Proof.
  induction l as [ | x l IH]; simpl; intros Hnd; [ constructor | ].
  inversion Hnd as [ | ? ? Hnotin Hnd']; subst.
  destruct (p x); simpl; [ | now apply IH ].
  constructor; [ | now apply IH ].
  intros Hin. apply Hnotin. apply in_map_iff in Hin as (y & Hy & Hyin).
  apply filter_In in Hyin as [Hyin _]. rewrite <- Hy. now apply in_map.
Qed.

(** Summing the per-room unread counts over rooms with distinct keys counts
    every unread message of these rooms once. *)
Lemma unread_counts_sum user_id w rooms :
  NoDup (map ChatRoomDB.id rooms) ->
  sumZ (map (fun r => unread_count_of (ChatRoomDB.id r) user_id w) rooms)
  = Z.of_nat
      (List.length
         (filter (fun m => in_ (MessageDB.chat_room_id m) (map ChatRoomDB.id rooms)
                           && is_unread_for user_id m)
            (messages w))).
Proof.
  induction rooms as [ | r rooms IH]; simpl; intros Hnd.
  - rewrite filter_all_false; [ reflexivity | ]. intros m _. reflexivity.
  - inversion Hnd as [ | ? ? Hnotin Hnd']; subst.
    rewrite (IH Hnd'), unread_count_of_length, <- Nat2Z.inj_add. f_equal.
    symmetry.
    apply (filter_orb_disjoint_length
             (fun m => MessageDB.chat_room_id m =? ChatRoomDB.id r)
             (fun m => in_ (MessageDB.chat_room_id m) (map ChatRoomDB.id rooms))).
    intros m _ Heq. apply Z.eqb_eq in Heq.
    destruct (in_ (MessageDB.chat_room_id m) (map ChatRoomDB.id rooms)) eqn:Hin;
      [ | reflexivity ].
    exfalso. apply Hnotin. unfold in_ in Hin.
    apply existsb_exists in Hin as (i & Hi & Heqi). apply Z.eqb_eq in Heqi.
    congruence.
Qed.

(** X19.  The statistics of a user agree with the listing of that user: in
    a reachable state, for a non-empty user id and a page large enough to
    hold all rooms, [total_rooms] is the number of entries of the listing
    taken with [active_only] off, and [total_unread_messages] is the sum of
    the unread counts of these entries. *)
Theorem statistics_agree_with_listing u limit w :
  reachable w -> u <> "" -> (List.length (chat_rooms w) <= limit)%nat ->
  exists s page,
    get_statistics (Some u) w = (inl s, w)
    /\ list_chat_rooms u false 0 limit w = (inl page, w)
    /\ ChatStatistics.total_rooms s = Z.of_nat (List.length page)
    /\ ChatStatistics.total_unread_messages s
       = sumZ (map ChatRoomWithLastMessage.unread_count page).
Proof.
  intros Hreach Hu Hlimit.
  pose proof (reachable_by_wf _ _ Hreach) as Hwf.
  set (mine := filter (is_participant u) (chat_rooms w)).
  assert (Hpage : list_chat_rooms_query u false 0 limit w = RoomSort.sort mine).
  { unfold list_chat_rooms_query. simpl. fold mine. apply firstn_all2.
    rewrite <- (Permutation_length (RoomSort.Permuted_sort mine)).
    etransitivity; [ apply filter_length_le | exact Hlimit ]. }
  assert (Htruthy : truthy_str (Some u) = true).
  { simpl. apply negb_true_iff, String.eqb_neq. exact Hu. }
  unfold get_statistics. rewrite Htruthy. unfold user_statistics. fold mine.
  eexists. eexists. split; [ reflexivity | ].
  rewrite list_chat_rooms_entries, Hpage. split; [ reflexivity | ].
  cbn [ChatStatistics.total_rooms ChatStatistics.total_unread_messages].
  split.
  - rewrite or_0_scalar_count, length_map.
    now rewrite (Permutation_length (RoomSort.Permuted_sort mine)).
  - rewrite map_map. simpl.
    rewrite <- (sumZ_Permutation _ _
                  (Permutation_map (fun r => unread_count_of (ChatRoomDB.id r) u w)
                     (RoomSort.Permuted_sort mine))).
    rewrite unread_counts_sum
      by (apply NoDup_map_filter, (wf_room_ids w Hwf)).
    destruct (map ChatRoomDB.id mine) as [ | i ids] eqn:Hids.
    + simpl. rewrite filter_all_false; [ reflexivity | ]. intros m _. reflexivity.
    + apply or_0_scalar_count.
Qed.

Lemma statistics_agree_with_listing_witness :
  reachable w_sent /\ "bob" <> ""
  /\ exists s page,
       get_statistics (Some "bob") w_sent = (inl s, w_sent)
       /\ list_chat_rooms "bob" false 0 50 w_sent = (inl page, w_sent)
       /\ ChatStatistics.total_unread_messages s
          = sumZ (map ChatRoomWithLastMessage.unread_count page).
Proof.
  assert (Hne : "bob" <> "") by discriminate.
  split; [ exact w_sent_reachable | ]. split; [ exact Hne | ].
  destruct (statistics_agree_with_listing "bob" 50 w_sent w_sent_reachable Hne)
    as (s & page & Hs & Hpage & _ & Hsum).
  - simpl. repeat constructor.
  - exists s, page. auto.
Defined.

(** ** The outcome of a dispatch *)

(** X20.  One call of [send_notification_with_retry] issues exactly one
    POST, with the given url and payload, never waits and touches no table;
    it returns [True] exactly when that POST is answered with status 201.
    Any other status (200 and 204 included) and any exception of the
    client give [False]. *)
Theorem dispatch_outcome url data w :
  exists b w',
    send_notification_with_retry url data w = (inl b, w')
    /\ (b = true <-> notifications_service w (List.length (posted w)) = Response 201)
    /\ posted w' = posted w ++ [(url, data)]
    /\ slept w' = slept w
    /\ chat_rooms w' = chat_rooms w
    /\ messages w' = messages w.
Proof.
  rewrite send_notification_with_retry_once.
  eexists. eexists. split; [ reflexivity | ].
  split; [ | repeat split ].
  unfold next_post_created.
  destruct (notifications_service w (List.length (posted w))) as [code | e].
  - rewrite Z.eqb_eq. split; [ now intros -> | ]. intros H. now injection H.
  - split; discriminate.
Qed.

(** ** A deactivated room in the listing *)

(** The room a deactivation leaves behind under its key. *)
Lemma deactivate_chat_room_room chat_room_id now w chat_room :
  room_with_id chat_room_id w = Some chat_room ->
  exists r',
    room_with_id chat_room_id (snd (deactivate_chat_room chat_room_id now w)) = Some r'
    /\ ChatRoomDB.is_active r' = false
    /\ room_key r' = room_key chat_room.
Proof.
  intros Hroom.
  pose proof (deactivate_chat_room_cases chat_room_id now w) as H.
  rewrite Hroom in H.
  destruct (ChatRoomDB.is_active chat_room) eqn:Hactive; rewrite H; simpl.
  - exists (set_is_active chat_room false now).
    split; [ now apply room_with_id_deactivated | split; reflexivity ].
  - exists chat_room. auto.
Qed.

(** X21.  In a reachable state, once a stored room has been deactivated, no
    page of the listing taken with [active_only] on shows it to anyone;
    a participant still finds it, marked inactive, in the listing taken with
    [active_only] off (on a page large enough to hold all rooms). *)
Theorem deactivated_room_in_listing chat_room_id now w chat_room user_id :
  reachable w ->
  room_with_id chat_room_id w = Some chat_room ->
  let w' := snd (deactivate_chat_room chat_room_id now w) in
  (forall skip limit page x,
      list_chat_rooms user_id true skip limit w' = (inl page, w') ->
      In x page -> ChatRoomWithLastMessage.id x <> chat_room_id)
  /\ (is_participant user_id chat_room = true ->
      forall limit, (List.length (chat_rooms w) <= limit)%nat ->
      exists page x,
        list_chat_rooms user_id false 0 limit w' = (inl page, w')
        /\ In x page
        /\ ChatRoomWithLastMessage.id x = chat_room_id
        /\ ChatRoomWithLastMessage.is_active x = false).
Proof.
  intros Hreach Hroom. cbv zeta.
  assert (Hwf' : wf (snd (deactivate_chat_room chat_room_id now w))).
  { apply deactivate_chat_room_wf. eapply reachable_by_wf; eauto. }
  destruct (deactivate_chat_room_room chat_room_id now w chat_room Hroom)
    as (r' & Hr' & Hinactive & Hkey).
  set (w' := snd (deactivate_chat_room chat_room_id now w)) in *.
  pose proof (first_filter_Some _ _ _ Hr') as [Hin' Hid']. apply Z.eqb_eq in Hid'.
  split.
  - intros skip limit page x Hlist Hx Hid.
    destruct (list_chat_rooms_entry _ _ _ _ _ _ _ Hlist Hx)
      as (room & Hin & Hsel & ->).
    simpl in Hid.
    assert (room = r') as ->.
    { eapply NoDup_map_eq;
        [ apply (wf_room_ids w' Hwf') | exact Hin | exact Hin' | congruence ]. }
    apply in_listing_spec in Hsel as [_ Hactive].
    rewrite (Hactive eq_refl) in Hinactive. discriminate.
  - intros Hpart limit Hlimit.
    assert (Hlen : List.length (chat_rooms w') = List.length (chat_rooms w)).
    { unfold w'. pose proof (deactivate_chat_room_cases chat_room_id now w) as H.
      rewrite Hroom in H.
      destruct (ChatRoomDB.is_active chat_room); rewrite H; simpl;
        [ apply length_map | reflexivity ]. }
    assert (Hsel : is_participant user_id r' = true).
    { unfold room_key in Hkey. injection Hkey as _ _ Hu1 Hu2.
      unfold is_participant in *. now rewrite Hu1, Hu2. }
    rewrite list_chat_rooms_entries.
    eexists. exists (listing_entry user_id w' r').
    split; [ reflexivity | ]. split; [ | split; [ exact Hid' | exact Hinactive ] ].
    apply in_map. unfold list_chat_rooms_query. simpl.
    rewrite firstn_all2.
    + apply (Permutation_in _ (RoomSort.Permuted_sort _)).
      apply filter_In. auto.
    + rewrite <- (Permutation_length (RoomSort.Permuted_sort _)).
      etransitivity; [ apply filter_length_le | ]. rewrite Hlen. exact Hlimit.
Qed.

Lemma deactivated_room_in_listing_witness :
  reachable w_sent
  /\ room_with_id 1 w_sent = Some (ChatRoomDB.mk 1 100 "alice" "bob" true (Some 20) 10 20)
  /\ forall page x,
       list_chat_rooms "bob" true 0 50 (snd (deactivate_chat_room 1 50 w_sent))
       = (inl page, snd (deactivate_chat_room 1 50 w_sent)) ->
       In x page -> ChatRoomWithLastMessage.id x <> 1.
Proof.
  split; [ exact w_sent_reachable | ]. split; [ reflexivity | ].
  exact (proj1 (deactivated_room_in_listing 1 50 w_sent
                  (ChatRoomDB.mk 1 100 "alice" "bob" true (Some 20) 10 20) "bob"
                  w_sent_reachable eq_refl) 0%nat 50%nat).
Defined.
